(** * Slack bot processor: secret cache, secret retrieval, dispatch, handler

    Shallow embedding of
    [applications/chatops/slack-bot/runtime/handlers/processor/main.py].

    Python values are an inductive type, the module's effects (the global
    secret cache, the wall clock, the Parameter Store client, standard
    output) are threaded through a state-and-exception monad, and the
    library functions the module calls ([json.dumps], [json.loads],
    [repr], the clock, the SSM client) are the fields of a [Runtime]
    class. *)

From Stdlib Require Import QArith Lqa.
From stdpp Require Import base option list strings pretty gmap.

Set Default Proof Using "Type".
Set Warnings "-register-all".
Local Open Scope string_scope.

(** ** Python values *)

(** The JSON-shaped values that reach the handler.  A [dict] keeps its
    insertion order (it decides what [json.dumps] prints), hence the
    association list; instants and float literals are rationals, every
    finite double being one (rounding of float addition is not modelled).
    A [str] is a sequence of characters, one [ascii] each. *)
Inductive value : Type :=
  | PyNone
  | PyBool (b : bool)
  | PyInt (z : Z)
  | PyFloat (q : Q)
  | PyStr (s : string)
  | PyList (l : list value)
  | PyDict (d : list (string * value)).

Abbreviation pydict := (list (string * value)).

(** [d.get(key)] on an association list: the first binding of [key]. *)
Fixpoint dict_lookup (d : pydict) (key : string) : option value :=
  match d with
  | [] => None
  | (k, v) :: d' => if String.eqb k key then Some v else dict_lookup d' key
  end.

(** [d.get(key, dflt)] *)
Definition dict_get (d : pydict) (key : string) (dflt : value) : value :=
  default dflt (dict_lookup d key).

(** [type(v).__name__] *)
Definition type_name (v : value) : string :=
  match v with
  | PyNone => "NoneType"
  | PyBool _ => "bool"
  | PyInt _ => "int"
  | PyFloat _ => "float"
  | PyStr _ => "str"
  | PyList _ => "list"
  | PyDict _ => "dict"
  end.

(** Truth value of an object, as tested by [if not x]. *)
Definition truthy (v : value) : bool :=
  match v with
  | PyNone => false
  | PyBool b => b
  | PyInt z => negb (z =? 0)%Z
  | PyFloat q => negb (Qeq_bool q 0)
  | PyStr s => negb (String.eqb s EmptyString)
  | PyList l => match l with [] => false | _ => true end
  | PyDict d => match d with [] => false | _ => true end
  end.

(** [operation == 'literal']: a [str] equals only the same [str]. *)
Definition eq_str (v : value) (lit : string) : bool :=
  match v with
  | PyStr s => String.eqb s lit
  | _ => false
  end.

(** ** Exceptions *)

(** Every exception the module can meet is a subclass of [Exception];
    [Exception msg] is the bare class, as built by [raise Exception(...)].
    An exception is modelled by its class and its text ([str(e)]), the
    parts the module reads; the [__context__] link that Python sets on
    an exception raised inside an [except] block is read nowhere and is
    left out. *)
Inductive exn : Type :=
  | Exception (msg : string)
  | ClientError (msg : string)
  | JSONDecodeError (msg : string)
  | AttributeError (msg : string)
  | TypeError (msg : string)
  | OtherError (cls msg : string).

(** [str(e)] *)
Definition exn_str (e : exn) : string :=
  match e with
  | Exception m | ClientError m | JSONDecodeError m
  | AttributeError m | TypeError m | OtherError _ m => m
  end.

(** [isinstance(e, ClientError)] *)
Definition is_ClientError (e : exn) : bool :=
  match e with ClientError _ => true | _ => false end.

(** ** The Parameter Store client *)

(** The part of a [get_parameter] response the module reads:
    [response['Parameter']['Value']], either key possibly missing. *)
Record ssm_parameter := { Value_ : option string }.
Record ssm_response := { Parameter_ : option ssm_parameter }.

(** What one call of [ssm_client.get_parameter] does: it returns a
    response, raises [ClientError] (the service refused: parameter not
    found, access denied), or raises some other exception (no
    connection, no credentials). *)
Inductive ssm_outcome : Type :=
  | SsmReturns (response : ssm_response)
  | SsmClientError (msg : string)
  | SsmOtherError (cls msg : string).

(** ** The runtime the module runs on *)

Class Runtime := {
  (** [os.environ] *)
  os_environ : gmap string string;
  (** [json.dumps] *)
  json_dumps : value -> string;
  (** [json.loads]: the parsed document, or the text of the
      [JSONDecodeError] *)
  json_loads : string -> string + value;
  (** [repr] of an object that is not a [str] *)
  py_repr : value -> string;
  (** the result of the [n]-th call of [time.time()] *)
  clock : nat -> Q;
  (** the result of the [n]-th call of [datetime.utcnow().isoformat()] *)
  utcnow_isoformat : nat -> string;
  (** the outcome of the [n]-th call of [ssm_client.get_parameter] *)
  ssm_get_parameter : nat -> string -> bool -> ssm_outcome;
}.

(** ** The secret cache and the state of the process *)

Record CacheEntry := { value_ : string; expires_at : Q }.

Record SecretCache := {
  _cache : gmap string CacheEntry;
  _ttl_seconds : Z;
}.

Record World := {
  (** the module-level [_secret_cache] *)
  _secret_cache : SecretCache;
  (** how many times [time.time()] was read *)
  time_reads : nat;
  (** how many times [datetime.utcnow()] was read *)
  utcnow_reads : nat;
  (** the [get_parameter] requests sent so far: [Name], [WithDecryption] *)
  ssm_calls : list (string * bool);
  (** the lines printed so far *)
  stdout : list string;
}.

Definition with_cache (c : SecretCache) (w : World) : World :=
  {| _secret_cache := c; time_reads := time_reads w;
     utcnow_reads := utcnow_reads w; ssm_calls := ssm_calls w;
     stdout := stdout w |}.

(** ** State and exception monad *)

Inductive outcome (A : Type) : Type :=
  | Return (a : A)
  | Raise (e : exn).
Arguments Return {A} a.
Arguments Raise {A} e.

Definition M (A : Type) : Type := World -> outcome A * World.

Definition ret {A} (a : A) : M A := fun w => (Return a, w).

Definition raise {A} (e : exn) : M A := fun w => (Raise e, w).

Definition bind {A B} (c : M A) (k : A -> M B) : M B :=
  fun w =>
    match c w with
    | (Return a, w') => k a w'
    | (Raise e, w') => (Raise e, w')
    end.

Notation "x <- c ;; k" := (bind c (fun x => k))
  (at level 100, c at next level, right associativity).
Notation "c ;;; k" := (bind c (fun _ => k))
  (at level 100, right associativity).

(** [try: body / except <classes> as e: handler e]; what [body] did to
    the state before raising stays done. *)
Definition try_except {A} (body : M A) (catches : exn -> bool)
    (handler : exn -> M A) : M A :=
  fun w =>
    match body w with
    | (Return a, w') => (Return a, w')
    | (Raise e, w') => if catches e then handler e w' else (Raise e, w')
    end.

(** [except Exception]: every modelled class. *)
Definition is_Exception (e : exn) : bool := true.

Section Processor.
Context `{Runtime}.

(** ** Primitive effects *)

(** [time.time()] *)
Definition time_time : M Q := fun w =>
  (Return (clock (time_reads w)),
   {| _secret_cache := _secret_cache w; time_reads := S (time_reads w);
      utcnow_reads := utcnow_reads w; ssm_calls := ssm_calls w;
      stdout := stdout w |}).

(** [datetime.utcnow().isoformat()] *)
Definition utcnow : M string := fun w =>
  (Return (utcnow_isoformat (utcnow_reads w)),
   {| _secret_cache := _secret_cache w; time_reads := time_reads w;
      utcnow_reads := S (utcnow_reads w); ssm_calls := ssm_calls w;
      stdout := stdout w |}).

(** [print(line)] *)
Definition print (line : string) : M unit := fun w =>
  (Return tt,
   {| _secret_cache := _secret_cache w; time_reads := time_reads w;
      utcnow_reads := utcnow_reads w; ssm_calls := ssm_calls w;
      stdout := stdout w ++ [line] |}).

(** [ssm_client.get_parameter(Name=name, WithDecryption=decrypt)]: the
    request is recorded, then the service answers. *)
Definition ssm_client_get_parameter (name : string) (decrypt : bool)
    : M ssm_response := fun w =>
  let w' :=
    {| _secret_cache := _secret_cache w; time_reads := time_reads w;
       utcnow_reads := utcnow_reads w;
       ssm_calls := ssm_calls w ++ [(name, decrypt)];
       stdout := stdout w |} in
  match ssm_get_parameter (length (ssm_calls w)) name decrypt with
  | SsmReturns response => (Return response, w')
  | SsmClientError msg => (Raise (ClientError msg), w')
  | SsmOtherError cls msg => (Raise (OtherError cls msg), w')
  end.

(** [str(v)], as an f-string formats [v] *)
Definition py_str (v : value) : string :=
  match v with
  | PyStr s => s
  | _ => py_repr v
  end.

(** [obj.get(key, dflt)]: only a [dict] has the method. *)
Definition method_get (obj : value) (key : string) (dflt : value) : M value :=
  match obj with
  | PyDict d => ret (dict_get d key dflt)
  | _ => raise (AttributeError
                  ("'" +:+ type_name obj +:+ "' object has no attribute 'get'"))
  end.

(** [obj[:20]] (CPython up to 3.11 for the [dict] case; later versions
    raise [KeyError] there, caught by the same handlers). *)
Definition slice20 (obj : value) : exn + value :=
  match obj with
  | PyStr s => inr (PyStr (String.substring 0 20 s))
  | PyList l => inr (PyList (take 20 l))
  | PyDict _ => inl (TypeError "unhashable type: 'slice'")
  | _ => inl (TypeError
                ("'" +:+ type_name obj +:+ "' object is not subscriptable"))
  end.

(** ** Configuration *)

Definition ENVIRONMENT : string := default "staging" (os_environ !! "ENVIRONMENT").
Definition LOG_LEVEL : string := default "INFO" (os_environ !! "LOG_LEVEL").

(** ** Utilities *)

Definition levels : gmap string Z :=
  list_to_map [("DEBUG", 0%Z); ("INFO", 1%Z); ("WARN", 2%Z); ("ERROR", 3%Z)].

Definition log (level message : string) : M unit :=
  let current_level := default 1%Z (levels !! LOG_LEVEL) in
  let message_level := default 1%Z (levels !! level) in
  if (current_level <=? message_level)%Z then
    timestamp <- utcnow ;;
    print (json_dumps (PyDict [("level", PyStr level);
                               ("message", PyStr message);
                               ("timestamp", PyStr timestamp)]))
  else ret tt.

(** ** Secret management *)

(** [SecretCache.__init__] *)
Definition SecretCache_init (ttl_seconds : Z) : SecretCache :=
  {| _cache := ∅; _ttl_seconds := ttl_seconds |}.

(** [SecretCache.get], on the module-level cache *)
Definition SecretCache_get (key : string) : M (option string) := fun w =>
  match _cache (_secret_cache w) !! key with
  | None => (Return None, w)
  | Some entry =>
      (now <- time_time ;;
       if Qlt_le_dec now (expires_at entry) then
         log "DEBUG" ("Using cached secret: " +:+ key) ;;;
         ret (Some (value_ entry))
       else
         fun w' =>
           (Return None,
            with_cache {| _cache := delete key (_cache (_secret_cache w'));
                          _ttl_seconds := _ttl_seconds (_secret_cache w') |} w'))
        w
  end.

(** [SecretCache.set], on the module-level cache *)
Definition SecretCache_set (key value : string) : M unit :=
  now <- time_time ;;
  fun w =>
    (Return tt,
     with_cache
       {| _cache :=
            <[key := {| value_ := value;
                        expires_at := now + inject_Z (_ttl_seconds (_secret_cache w)) |}]>
              (_cache (_secret_cache w));
          _ttl_seconds := _ttl_seconds (_secret_cache w) |} w).

Definition get_secret (parameter_name : string) : M string :=
  cached <- SecretCache_get parameter_name ;;
  match cached with
  | Some c => ret c
  | None =>
      log "INFO" ("Fetching secret from Parameter Store: " +:+ parameter_name) ;;;
      try_except
        (response <- ssm_client_get_parameter parameter_name true ;;
         match Parameter_ response with
         | None =>
             raise (Exception ("Parameter " +:+ parameter_name +:+ " not found or empty"))
         | Some parameter =>
             match Value_ parameter with
             | None =>
                 raise (Exception ("Parameter " +:+ parameter_name +:+ " not found or empty"))
             | Some value =>
                 SecretCache_set parameter_name value ;;;
                 ret value
             end
         end)
        is_ClientError
        (fun e =>
           log "ERROR" ("Failed to fetch secret " +:+ parameter_name +:+ ": " +:+ exn_str e) ;;;
           raise (Exception ("Failed to retrieve secret: " +:+ parameter_name)))
  end.

Definition get_api_key : M string :=
  let parameter_path := "/slack-bot/" +:+ ENVIRONMENT +:+ "/api-key" in
  get_secret parameter_path.

Definition get_webhook_url : M string :=
  let parameter_path := "/slack-bot/" +:+ ENVIRONMENT +:+ "/webhook-url" in
  get_secret parameter_path.

(** ** Data processing *)

Definition generate_cost_report (parameters : value) : M value :=
  log "INFO" "Generating cost report" ;;;
  fetched <-
    try_except
      (api_key <- get_api_key ;;
       log "INFO" "API key retrieved successfully" ;;;
       ret (inr api_key))
      is_Exception
      (fun e =>
         log "ERROR" ("Failed to retrieve API key: " +:+ exn_str e) ;;;
         ret (inl (PyDict [("status", PyStr "error");
                           ("message", PyStr "Failed to retrieve API credentials")]))) ;;
  match fetched with
  | inl early => ret early
  | inr api_key =>
      period <- method_get parameters "period" (PyStr "last_30_days") ;;
      generated_at <- utcnow ;;
      ret (PyDict
             [("status", PyStr "success");
              ("report",
               PyDict [("period", period);
                       ("total_cost", PyFloat 1234.56);
                       ("breakdown",
                        PyDict [("compute", PyFloat 800.00);
                                ("storage", PyFloat 234.56);
                                ("network", PyFloat 200.00)])]);
              ("generated_at", PyStr generated_at)])
  end.

Definition audit_infrastructure (parameters : value) : M value :=
  log "INFO" "Auditing infrastructure" ;;;
  audited_at <- utcnow ;;
  ret (PyDict
         [("status", PyStr "success");
          ("audit",
           PyDict [("checks_passed", PyInt 42);
                   ("checks_failed", PyInt 3);
                   ("warnings", PyInt 7);
                   ("findings",
                    PyList [PyStr "S3 bucket public access detected";
                            PyStr "Unused security groups found";
                            PyStr "EC2 instances without tags"])]);
          ("audited_at", PyStr audited_at)]).

Definition analyze_user_stats (parameters : value) : M value :=
  log "INFO" "Analyzing user statistics" ;;;
  analyzed_at <- utcnow ;;
  ret (PyDict
         [("status", PyStr "success");
          ("stats",
           PyDict [("active_users", PyInt 156);
                   ("commands_executed", PyInt 2341);
                   ("most_used_command", PyStr "cost-report")]);
          ("analyzed_at", PyStr analyzed_at)]).

Definition process_data (intent : value) : M value :=
  operation <- method_get intent "operation" (PyStr "unknown") ;;
  parameters <- method_get intent "parameters" (PyDict []) ;;
  log "INFO" ("Processing operation: " +:+ py_str operation) ;;;
  if eq_str operation "cost-report" then generate_cost_report parameters
  else if eq_str operation "infra-audit" then audit_infrastructure parameters
  else if eq_str operation "user-stats" then analyze_user_stats parameters
  else
    ret (PyDict [("status", PyStr "unknown_operation");
                 ("message", PyStr ("Unknown operation: " +:+ py_str operation))]).

(** ** Notification *)

(** The POST itself is commented out in the source: what is left of the
    delivery is the slice of the address and the log line. *)
Definition send_notification (result callback_url : value) : M unit :=
  if negb (truthy callback_url) then
    log "INFO" "No callback URL provided, skipping notification"
  else
    try_except
      (match slice20 callback_url with
       | inl e => raise e
       | inr prefix => log "INFO" ("Notification sent to " +:+ py_str prefix +:+ "...")
       end)
      is_Exception
      (fun e => log "ERROR" ("Failed to send notification: " +:+ exn_str e)).

(** ** Lambda handler *)

(** The [try] block of [handler] *)
Definition handler_try (event : value) : M value :=
  log "INFO" "Processor handler invoked" ;;;
  intent <-
    match event with
    | PyStr s =>
        match json_loads s with
        | inl msg => raise (JSONDecodeError msg)
        | inr doc => ret doc
        end
    | _ => ret event
    end ;;
  id <- method_get intent "id" (PyStr "unknown") ;;
  log "INFO" ("Processing intent: " +:+ py_str id) ;;;
  result <- process_data intent ;;
  callback_url <- method_get intent "callbackUrl" PyNone ;;
  send_notification result callback_url ;;;
  log "INFO" "Processing completed successfully" ;;;
  ret (PyDict [("statusCode", PyInt 200);
               ("body", PyStr (json_dumps result))]).

(** The response of the [except] block of [handler] *)
Definition internal_error_response : value :=
  PyDict [("statusCode", PyInt 500);
          ("body",
           PyStr (json_dumps
                    (PyDict [("status", PyStr "error");
                             ("message", PyStr "Internal processing error")])))].

Definition handler (event context : value) : M value :=
  try_except
    (handler_try event)
    is_Exception
    (fun e =>
       log "ERROR" ("Handler error: " +:+ exn_str e) ;;;
       ret internal_error_response).

End Processor.

(** ** A concrete runtime, to run the model *)

(** A compact rendering of a value (no escaping), standing in for
    [json.dumps] when the model is evaluated. *)
Fixpoint render (v : value) : string :=
  match v with
  | PyNone => "null"
  | PyBool b => if b then "true" else "false"
  | PyInt z => pretty z
  | PyFloat q => pretty (Qnum q) +:+ "/" +:+ pretty (Zpos (Qden q))
  | PyStr s => "'" +:+ s +:+ "'"
  | PyList l =>
      "[" +:+ (fix items (l : list value) : string :=
                 match l with
                 | [] => EmptyString
                 | x :: l' => render x +:+ "," +:+ items l'
                 end) l +:+ "]"
  | PyDict d =>
      "{" +:+ (fix items (d : pydict) : string :=
                 match d with
                 | [] => EmptyString
                 | (k, x) :: d' => "'" +:+ k +:+ "':" +:+ render x +:+ "," +:+ items d'
                 end) d +:+ "}"
  end.

(** The clock gains 200 seconds between two reads; the store holds the
    staging API key, refuses the webhook URL, is unreachable for
    ["/offline"] and answers without a value otherwise. *)
Definition demo : Runtime := {|
  os_environ := ∅;
  json_dumps := render;
  json_loads s :=
    if String.eqb s "{}" then inr (PyDict [])
    else if String.eqb s "[]" then inr (PyList [])
    else inl "Expecting value: line 1 column 1 (char 0)";
  py_repr := render;
  clock n := inject_Z (1000 + 200 * Z.of_nat n);
  utcnow_isoformat n := "2024-01-01T00:00:0" +:+ pretty n;
  ssm_get_parameter n name decrypt :=
    if String.eqb name "/slack-bot/staging/api-key" && decrypt
    then SsmReturns {| Parameter_ := Some {| Value_ := Some "s3cr3t" |} |}
    else if String.eqb name "/slack-bot/staging/webhook-url"
    then SsmClientError "An error occurred (AccessDeniedException)"
    else if String.eqb name "/offline"
    then SsmOtherError "EndpointConnectionError" "Could not connect to the endpoint URL"
    else SsmReturns {| Parameter_ := Some {| Value_ := None |} |}
|}.

(** The process as the module is first imported: an empty cache with a
    five-minute lifetime. *)
Definition boot : World :=
  {| _secret_cache := SecretCache_init 300; time_reads := 0;
     utcnow_reads := 0; ssm_calls := []; stdout := [] |}.

(** The process after a first retrieval of the staging API key. *)
Definition warm : World :=
  snd (@get_secret demo "/slack-bot/staging/api-key" boot).

(** A fresh process whose cache keeps entries for 100 seconds. *)
Definition boot_short : World :=
  with_cache (SecretCache_init 100) boot.

(** A store that holds another API key than the one of [demo] and
    answers like it otherwise. *)
Definition rotated_store (n : nat) (name : string) (decrypt : bool) : ssm_outcome :=
  if String.eqb name "/slack-bot/staging/api-key" && decrypt
  then SsmReturns {| Parameter_ := Some {| Value_ := Some "r0t4t3d" |} |}
  else @ssm_get_parameter demo n name decrypt.

(** The intent of the local test at the end of the module, without its
    timestamp. *)
Definition cost_report_event : value :=
  PyDict [("id", PyStr "test-intent-123");
          ("operation", PyStr "cost-report");
          ("parameters", PyDict [("period", PyStr "last_7_days")]);
          ("requestedBy", PyStr "user123");
          ("cloud", PyStr "aws")].

(** ** Vocabulary of the statements *)

(** [quiet w w']: from [w] to [w'] nothing happened but printing (the
    printed lines and the count of [utcnow] reads may differ): same
    cache, same clock reads, same requests to the store. *)
Definition quiet (w w' : World) : Prop :=
  _secret_cache w' = _secret_cache w /\
  time_reads w' = time_reads w /\
  ssm_calls w' = ssm_calls w.

(** The world [w] with the entry of [key] absent from the cache. *)
Definition without (key : string) (w : World) : World :=
  with_cache {| _cache := delete key (_cache (_secret_cache w));
                _ttl_seconds := _ttl_seconds (_secret_cache w) |} w.

(** [stale key w]: a read of [key] in [w] finds nothing to return, the
    entry being absent or expired at the instant the read gets. *)
Definition stale `{Runtime} (key : string) (w : World) : Prop :=
  match _cache (_secret_cache w) !! key with
  | None => True
  | Some e => (expires_at e <= clock (time_reads w))%Q
  end.

(** The index of the clock read that follows a stale read of [key]:
    the read of [SecretCache.get] consumed one instant only if it found
    an entry. *)
Definition fetch_read (key : string) (w : World) : nat :=
  match _cache (_secret_cache w) !! key with
  | None => time_reads w
  | Some _ => S (time_reads w)
  end.

(** [response['Parameter']['Value']] when the store returned a response
    holding both keys. *)
Definition response_value (o : ssm_outcome) : option string :=
  match o with
  | SsmReturns r =>
      match Parameter_ r with
      | Some p => Value_ p
      | None => None
      end
  | _ => None
  end.


(** The two log lines that open the [try] block, for a [dict] intent. *)
Definition prelude `{Runtime} (d : pydict) : M unit :=
  log "INFO" "Processor handler invoked" ;;;
  log "INFO" ("Processing intent: " +:+ py_str (dict_get d "id" (PyStr "unknown"))).

(** The world [w] after [log] has printed [message] at [level]. *)
Definition printed `{Runtime} (level message : string) (w : World) : World :=
  {| _secret_cache := _secret_cache w; time_reads := time_reads w;
     utcnow_reads := S (utcnow_reads w); ssm_calls := ssm_calls w;
     stdout := stdout w ++
               [json_dumps (PyDict [("level", PyStr level);
                                    ("message", PyStr message);
                                    ("timestamp",
                                     PyStr (utcnow_isoformat (utcnow_reads w)))])] |}.

(** [footprint w w']: from [w] to [w'] the secrets were left alone, or
    were touched by exactly one call of [get_api_key]; the rest is
    printing. *)
Definition footprint `{Runtime} (w w' : World) : Prop :=
  quiet w w' \/
  exists w0 r0 w1, quiet w w0 /\ get_api_key w0 = (r0, w1) /\ quiet w1 w'.

(** Every entry of the cache expires one ttl after an instant the
    process has read. *)
Definition expiry_wf `{Runtime} (w : World) : Prop :=
  forall k e,
    _cache (_secret_cache w) !! k = Some e ->
    exists n, (n < time_reads w)%nat /\
              expires_at e = (clock n + inject_Z (_ttl_seconds (_secret_cache w)))%Q.

(** Every entry of the cache holds the value the store gave, to a request
    already sent, for the name the entry is kept under. *)
Definition sourced `{Runtime} (w : World) : Prop :=
  forall k e,
    _cache (_secret_cache w) !! k = Some e ->
    exists i, ssm_calls w !! i = Some (k, true) /\
              response_value (ssm_get_parameter i k true) = Some (value_ e).

(** The runtime [R] with another store behind the SSM client. *)
Definition with_store (R : Runtime)
    (store : nat -> string -> bool -> ssm_outcome) : Runtime :=
  {| os_environ := @os_environ R;
     json_dumps := @json_dumps R;
     json_loads := @json_loads R;
     py_repr := @py_repr R;
     clock := @clock R;
     utcnow_isoformat := @utcnow_isoformat R;
     ssm_get_parameter := store |}.

(** Two answers of the store that differ at most in the value returned. *)
Definition same_shape (o1 o2 : ssm_outcome) : Prop :=
  match o1, o2 with
  | SsmReturns r1, SsmReturns r2 =>
      response_value (SsmReturns r1) = None <-> response_value (SsmReturns r2) = None
  | SsmClientError m1, SsmClientError m2 => m1 = m2
  | SsmOtherError c1 m1, SsmOtherError c2 m2 => c1 = c2 /\ m1 = m2
  | _, _ => False
  end.

(** Two worlds that differ at most in the values the cache holds: same
    names cached, with the same expiry. *)
Definition sim (w1 w2 : World) : Prop :=
  time_reads w1 = time_reads w2 /\
  utcnow_reads w1 = utcnow_reads w2 /\
  ssm_calls w1 = ssm_calls w2 /\
  stdout w1 = stdout w2 /\
  _ttl_seconds (_secret_cache w1) = _ttl_seconds (_secret_cache w2) /\
  forall k,
    option_Forall2 (fun e1 e2 => expires_at e1 = expires_at e2)
      (_cache (_secret_cache w1) !! k) (_cache (_secret_cache w2) !! k).

(** Two computations that, from similar worlds, end in similar worlds,
    both returning (values related by [RA]) or both raising the same
    exception. *)
Definition related {A} (RA : A -> A -> Prop) (c1 c2 : M A) : Prop :=
  forall w1 w2,
    sim w1 w2 ->
    sim (snd (c1 w1)) (snd (c2 w2)) /\
    match fst (c1 w1), fst (c2 w2) with
    | Return a1, Return a2 => RA a1 a2
    | Raise e1, Raise e2 => e1 = e2
    | _, _ => False
    end.

(** ** Logging only prints *)

Section Properties.
Context `{Runtime}.

Lemma quiet_refl w : quiet w w.
Proof. by repeat split. Qed.

Lemma quiet_trans w1 w2 w3 : quiet w1 w2 -> quiet w2 w3 -> quiet w1 w3.
Proof.
  intros (c1 & t1 & s1) (c2 & t2 & s2).
  repeat split; congruence.
Qed.

Lemma log_quiet level message w :
  exists w', log level message w = (Return tt, w') /\ quiet w w'.
Proof.
  unfold log.
  destruct (_ <=? _)%Z.
  - eexists. split; [reflexivity|]. by repeat split.
  - exists w. split; [reflexivity|]. apply quiet_refl.
Qed.

#[local] Opaque log.

Ltac step_log :=
  match goal with
  | |- context [log ?l ?m ?w] =>
      let w' := fresh "w" in
      let E := fresh "E" in
      let Q := fresh "Hq" in
      destruct (log_quiet l m w) as (w' & E & Q);
      rewrite E; clear E; simpl
  end.

(** ** SecretCache *)

Lemma SecretCache_get_absent key w :
  _cache (_secret_cache w) !! key = None ->
  SecretCache_get key w = (Return None, w).
Proof. intros E. unfold SecretCache_get. by rewrite E. Qed.

Lemma SecretCache_get_fresh key e w :
  _cache (_secret_cache w) !! key = Some e ->
  (clock (time_reads w) < expires_at e)%Q ->
  exists w',
    SecretCache_get key w = (Return (Some (value_ e)), w') /\
    _secret_cache w' = _secret_cache w /\
    time_reads w' = S (time_reads w) /\
    ssm_calls w' = ssm_calls w.
Proof.
  intros E Hlt. unfold SecretCache_get. rewrite E.
  unfold bind, time_time. simpl.
  destruct (Qlt_le_dec _ _) as [_|Hle]; [|lra].
  step_log. destruct Hq as (c & t & sc). simpl in *.
  eexists. split; [reflexivity|]. by rewrite c, t, sc.
Qed.

Lemma SecretCache_get_expired key e w :
  _cache (_secret_cache w) !! key = Some e ->
  (expires_at e <= clock (time_reads w))%Q ->
  exists w',
    SecretCache_get key w = (Return None, w') /\
    _secret_cache w' = _secret_cache (without key w) /\
    time_reads w' = S (time_reads w) /\
    ssm_calls w' = ssm_calls w /\
    stdout w' = stdout w.
Proof.
  intros E Hle. unfold SecretCache_get. rewrite E.
  unfold bind, time_time. simpl.
  destruct (Qlt_le_dec _ _) as [Hlt|_]; [lra|].
  eexists. split; [reflexivity|]. by repeat split.
Qed.

Lemma SecretCache_set_spec key v w :
  exists w',
    SecretCache_set key v w = (Return tt, w') /\
    _cache (_secret_cache w') =
      <[key := {| value_ := v;
                  expires_at := clock (time_reads w)
                                + inject_Z (_ttl_seconds (_secret_cache w)) |}]>
        (_cache (_secret_cache w)) /\
    _ttl_seconds (_secret_cache w') = _ttl_seconds (_secret_cache w) /\
    time_reads w' = S (time_reads w) /\
    ssm_calls w' = ssm_calls w.
Proof.
  unfold SecretCache_set, bind, time_time. simpl.
  eexists. split; [reflexivity|]. by repeat split.
Qed.

(** C3. [SecretCache.get] never raises.  With no entry under the key it
    returns [None] and changes nothing.  With an entry, it returns the
    entry's value while the instant it reads is strictly before
    [expires_at], leaving the cache as it was; from [expires_at] on it
    returns [None] and leaves the cache without the entry, which is the
    answer and the cache it gives when the entry was never there.  A
    value is returned only from an entry whose expiry is strictly after
    the instant read. *)
Theorem SecretCache_get_contract key w :
  (exists r w', SecretCache_get key w = (Return r, w')) /\
  match _cache (_secret_cache w) !! key with
  | None => SecretCache_get key w = (Return None, w)
  | Some e =>
      ((clock (time_reads w) < expires_at e)%Q ->
       exists w', SecretCache_get key w = (Return (Some (value_ e)), w') /\
                  _secret_cache w' = _secret_cache w) /\
      ((expires_at e <= clock (time_reads w))%Q ->
       exists w', SecretCache_get key w = (Return None, w') /\
                  _cache (_secret_cache w') !! key = None /\
                  SecretCache_get key (without key w) = (Return None, without key w) /\
                  _secret_cache w' = _secret_cache (without key w))
  end /\
  (forall v w', SecretCache_get key w = (Return (Some v), w') ->
     exists e, _cache (_secret_cache w) !! key = Some e /\ value_ e = v /\
               (clock (time_reads w) < expires_at e)%Q).
Proof.
  destruct (_cache (_secret_cache w) !! key) as [e|] eqn:E.
  - destruct (Qlt_le_dec (clock (time_reads w)) (expires_at e)) as [Hlt|Hle].
    + destruct (SecretCache_get_fresh key e w E Hlt) as (w1 & G & c & _).
      split; [eauto|]. split; [split|].
      * intros _. eauto.
      * intros Hle. lra.
      * intros v w' G'. rewrite G in G'. inversion G'; subst. eauto.
    + destruct (SecretCache_get_expired key e w E Hle) as (w1 & G & c & _).
      split; [eauto|]. split; [split|].
      * intros Hlt. lra.
      * intros _. exists w1. split; [done|]. split; [|split; [|done]].
        -- rewrite c. simpl. apply lookup_delete_eq.
        -- apply SecretCache_get_absent. simpl. apply lookup_delete_eq.
      * intros v w' G'. rewrite G in G'. discriminate.
  - pose proof (SecretCache_get_absent key w E) as G.
    split; [eauto|]. split; [done|].
    intros v w' G'. rewrite G in G'. discriminate.
Qed.

(** C4. [set(k, v)] followed at once by [get(k)] returns [v] when the
    instant read by [get] is before the expiry that [set] computed (its
    own instant plus the ttl); a further [get] before that expiry
    returns [v] again, from the same cache and with no request to the
    store.  When the instant read by [get] has reached the expiry, [get]
    returns [None] and the entry is gone. *)
Theorem SecretCache_set_then_get k v w :
  let expiry := (clock (time_reads w)
                 + inject_Z (_ttl_seconds (_secret_cache w)))%Q in
  ((clock (S (time_reads w)) < expiry)%Q ->
   exists w',
     (SecretCache_set k v ;;; SecretCache_get k) w = (Return (Some v), w') /\
     ssm_calls w' = ssm_calls w /\
     ((clock (S (S (time_reads w))) < expiry)%Q ->
      exists w'',
        SecretCache_get k w' = (Return (Some v), w'') /\
        _secret_cache w'' = _secret_cache w' /\
        ssm_calls w'' = ssm_calls w)) /\
  ((expiry <= clock (S (time_reads w)))%Q ->
   exists w',
     (SecretCache_set k v ;;; SecretCache_get k) w = (Return None, w') /\
     _cache (_secret_cache w') !! k = None).
Proof.
  intros expiry.
  destruct (SecretCache_set_spec k v w) as (w1 & S1 & c1 & ttl1 & t1 & s1).
  assert (E1 : _cache (_secret_cache w1) !! k
               = Some {| value_ := v; expires_at := expiry |}).
  { rewrite c1. apply lookup_insert_eq. }
  split.
  - intros Hlt.
    destruct (SecretCache_get_fresh k _ w1 E1) as (w2 & G & c2 & t2 & s2).
    { rewrite t1. exact Hlt. }
    exists w2. unfold bind at 1. rewrite S1. split; [exact G|].
    split; [congruence|].
    intros Hlt2.
    destruct (SecretCache_get_fresh k {| value_ := v; expires_at := expiry |} w2)
      as (w3 & G3 & c3 & t3 & s3).
    { rewrite c2. exact E1. }
    { rewrite t2, t1. exact Hlt2. }
    exists w3. split; [exact G3|]. split; congruence.
  - intros Hle.
    destruct (SecretCache_get_expired k _ w1 E1) as (w2 & G & c2 & _).
    { rewrite t1. exact Hle. }
    exists w2. unfold bind. rewrite S1. split; [exact G|].
    rewrite c2. simpl. apply lookup_delete_eq.
Qed.

(** ** get_secret *)

Lemma SecretCache_get_stale name w :
  stale name w ->
  exists w1,
    SecretCache_get name w = (Return None, w1) /\
    _secret_cache w1 = _secret_cache (without name w) /\
    time_reads w1 = fetch_read name w /\
    ssm_calls w1 = ssm_calls w.
Proof.
  unfold stale, fetch_read.
  destruct (_cache (_secret_cache w) !! name) as [e|] eqn:E; intros St.
  - destruct (SecretCache_get_expired name e w E St) as (w1 & G & c & t & sc & _).
    eauto.
  - exists w. split; [by apply SecretCache_get_absent|].
    split; [|done]. simpl.
    rewrite (delete_id _ _ E). by destruct (_secret_cache w).
Qed.

Lemma get_secret_hit name e w :
  _cache (_secret_cache w) !! name = Some e ->
  (clock (time_reads w) < expires_at e)%Q ->
  exists w',
    get_secret name w = (Return (value_ e), w') /\
    _secret_cache w' = _secret_cache w /\
    ssm_calls w' = ssm_calls w /\
    time_reads w' = S (time_reads w).
Proof.
  intros E Hlt.
  destruct (SecretCache_get_fresh name e w E Hlt) as (w1 & G & c & t & sc).
  exists w1. unfold get_secret, bind. rewrite G. done.
Qed.

(** What [get_secret] does on a stale read, by the answer of the store. *)
Lemma get_secret_miss name w :
  stale name w ->
  exists w',
    ssm_calls w' = (ssm_calls w ++ [(name, true)])%list /\
    match ssm_get_parameter (length (ssm_calls w)) name true with
    | SsmReturns r =>
        match response_value (SsmReturns r) with
        | Some v =>
            get_secret name w = (Return v, w') /\
            _cache (_secret_cache w') =
              <[name := {| value_ := v;
                           expires_at := clock (fetch_read name w)
                                         + inject_Z (_ttl_seconds (_secret_cache w)) |}]>
                (_cache (_secret_cache w))
        | None =>
            get_secret name w =
              (Raise (Exception ("Parameter " +:+ name +:+ " not found or empty")), w')
        end
    | SsmClientError msg =>
        get_secret name w =
          (Raise (Exception ("Failed to retrieve secret: " +:+ name)), w')
    | SsmOtherError cls msg =>
        get_secret name w = (Raise (OtherError cls msg), w')
    end.
Proof.
  intros St.
  destruct (SecretCache_get_stale name w St) as (w1 & G & c1 & t1 & s1).
  destruct (ssm_get_parameter _ _ _) as [[[[[v|]]|]]|msg|cls msg] eqn:O; simpl;
    unfold get_secret, bind; rewrite G; step_log;
    destruct Hq as (c2 & t2 & s2);
    unfold try_except, bind, ssm_client_get_parameter;
    rewrite s2, s1, O; simpl.
  - unfold SecretCache_set, bind, time_time, ret. simpl.
    eexists. split; [|split; [reflexivity|]]; simpl.
    + done.
    + rewrite c2, c1, t2, t1. simpl. apply insert_delete_eq.
  - eexists. split; [|reflexivity]. done.
  - eexists. split; [|reflexivity]. done.
  - step_log. destruct Hq as (_ & _ & s3).
    eexists. split; [|reflexivity]. done.
  - eexists. split; [|reflexivity]. done.
Qed.

Lemma fresh_or_stale name w :
  (exists e, _cache (_secret_cache w) !! name = Some e /\
             (clock (time_reads w) < expires_at e)%Q) \/
  stale name w.
Proof.
  unfold stale. destruct (_cache (_secret_cache w) !! name) as [e|]; [|by right].
  destruct (Qlt_le_dec (clock (time_reads w)) (expires_at e)); eauto.
Qed.

Lemma fresh_not_stale name e w :
  _cache (_secret_cache w) !! name = Some e ->
  (clock (time_reads w) < expires_at e)%Q ->
  ~ stale name w.
Proof. unfold stale. intros -> Hlt Hle. lra. Qed.

(** C1. [get_secret] reads the cache first.  On an entry that has not
    expired it returns the cached value and sends no request to the
    store.  On a stale read (no entry, or an expired one) it sends
    exactly one request, for the same name and with decryption on,
    whatever the store answers; when the store answers with a value,
    that value is returned and cached under the same name with expiry
    the fetch instant plus the ttl, so that a later call finding this
    entry before its expiry returns the value with no request. *)
Theorem get_secret_cache_first name w :
  (forall e,
     _cache (_secret_cache w) !! name = Some e ->
     (clock (time_reads w) < expires_at e)%Q ->
     exists w', get_secret name w = (Return (value_ e), w') /\
                ssm_calls w' = ssm_calls w) /\
  (stale name w ->
     (exists r w', get_secret name w = (r, w') /\
                   ssm_calls w' = (ssm_calls w ++ [(name, true)])%list) /\
     (forall v,
        response_value (ssm_get_parameter (length (ssm_calls w)) name true) = Some v ->
        exists w' e,
          get_secret name w = (Return v, w') /\
          _cache (_secret_cache w') !! name = Some e /\
          value_ e = v /\
          expires_at e = (clock (fetch_read name w)
                          + inject_Z (_ttl_seconds (_secret_cache w)))%Q /\
          forall w2,
            _cache (_secret_cache w2) !! name = Some e ->
            (clock (time_reads w2) < expires_at e)%Q ->
            exists w3, get_secret name w2 = (Return v, w3) /\
                       ssm_calls w3 = ssm_calls w2)).
Proof.
  split.
  - intros e E Hlt.
    destruct (get_secret_hit name e w E Hlt) as (w' & G & _ & sc & _). eauto.
  - intros St. destruct (get_secret_miss name w St) as (w' & sc & Hout). split.
    + destruct (ssm_get_parameter _ _ _) as [r|msg|cls msg].
      * destruct (response_value _); [destruct Hout|]; eauto.
      * eauto.
      * eauto.
    + intros v Hv.
      destruct (ssm_get_parameter _ _ _) as [r|msg|cls msg]; try discriminate.
      rewrite Hv in Hout. destruct Hout as [G c].
      eexists w', _. split; [exact G|].
      split; [rewrite c; apply lookup_insert_eq|].
      split; [done|]. split; [done|].
      intros w2 E2 Hlt.
      destruct (get_secret_hit name _ w2 E2 Hlt) as (w3 & G3 & _ & s3 & _). eauto.
Qed.


(** A call of [get_secret] always leaves a trace: a clock read (it found
    an entry) or a request to the store (it found none). *)
Lemma get_secret_not_quiet name w r w' :
  get_secret name w = (r, w') -> ~ quiet w w'.
Proof.
  intros G (_ & t & sc).
  destruct (fresh_or_stale name w) as [(e & E & Hlt)|St].
  - destruct (get_secret_hit name e w E Hlt) as (w1 & G1 & _ & _ & t1).
    rewrite G in G1. inversion G1; subst. lia.
  - destruct (get_secret_miss name w St) as (w1 & s1 & Hout).
    assert (ssm_calls w' = (ssm_calls w ++ [(name, true)])%list) as E.
    { destruct (ssm_get_parameter _ _ _) as [r0|m|c m];
        [destruct (response_value _); [destruct Hout as [Hout _]|]| |];
        rewrite G in Hout; inversion Hout; subst; exact s1. }
    rewrite sc in E. apply (f_equal length) in E.
    rewrite length_app in E. simpl in E. lia.
Qed.

(** ** Dispatch *)

Lemma generate_cost_report_run parameters w :
  exists w0 r w1,
    quiet w w0 /\ get_api_key w0 = (r, w1) /\
    match r with
    | Raise e =>
        exists w',
          generate_cost_report parameters w =
            (Return (PyDict [("status", PyStr "error");
                             ("message", PyStr "Failed to retrieve API credentials")]), w') /\
          quiet w1 w'
    | Return api_key =>
        match parameters with
        | PyDict d =>
            exists generated_at w',
              generate_cost_report parameters w =
                (Return
                   (PyDict
                      [("status", PyStr "success");
                       ("report",
                        PyDict [("period", dict_get d "period" (PyStr "last_30_days"));
                                ("total_cost", PyFloat 1234.56);
                                ("breakdown",
                                 PyDict [("compute", PyFloat 800.00);
                                         ("storage", PyFloat 234.56);
                                         ("network", PyFloat 200.00)])]);
                       ("generated_at", PyStr generated_at)]), w') /\
              quiet w1 w'
        | _ =>
            exists msg w',
              generate_cost_report parameters w = (Raise (AttributeError msg), w') /\
              quiet w1 w'
        end
    end.
Proof.
  destruct (log_quiet "INFO" "Generating cost report" w) as (w0 & E0 & Hq).
  destruct (get_api_key w0) as [r w1] eqn:G.
  exists w0, r, w1. split; [done|]. split; [done|].
  destruct r as [api_key|e].
  - destruct parameters;
      unfold generate_cost_report, try_except, bind; rewrite E0, G;
      step_log; unfold ret, raise, utcnow; simpl;
      eexists _, _; (split; [reflexivity|]); assumption.
  - unfold generate_cost_report, try_except, bind; rewrite E0, G; simpl.
    step_log. unfold ret. eauto.
Qed.

Lemma audit_infrastructure_run parameters w :
  exists audited_at w',
    audit_infrastructure parameters w =
      (Return
         (PyDict
            [("status", PyStr "success");
             ("audit",
              PyDict [("checks_passed", PyInt 42);
                      ("checks_failed", PyInt 3);
                      ("warnings", PyInt 7);
                      ("findings",
                       PyList [PyStr "S3 bucket public access detected";
                               PyStr "Unused security groups found";
                               PyStr "EC2 instances without tags"])]);
             ("audited_at", PyStr audited_at)]), w') /\
    quiet w w'.
Proof.
  unfold audit_infrastructure, bind. step_log. unfold utcnow, ret. simpl.
  eexists _, _. split; [reflexivity|].
  destruct Hq as (c & t & sc). by repeat split.
Qed.

Lemma analyze_user_stats_run parameters w :
  exists analyzed_at w',
    analyze_user_stats parameters w =
      (Return
         (PyDict
            [("status", PyStr "success");
             ("stats",
              PyDict [("active_users", PyInt 156);
                      ("commands_executed", PyInt 2341);
                      ("most_used_command", PyStr "cost-report")]);
             ("analyzed_at", PyStr analyzed_at)]), w') /\
    quiet w w'.
Proof.
  unfold analyze_user_stats, bind. step_log. unfold utcnow, ret. simpl.
  eexists _, _. split; [reflexivity|].
  destruct Hq as (c & t & sc). by repeat split.
Qed.

(** [process_data] on a [dict]: the two reads, the log line, then the
    branch chosen by the operation. *)
Lemma process_data_dict d w :
  exists w0,
    quiet w w0 /\
    process_data (PyDict d) w =
      let operation := dict_get d "operation" (PyStr "unknown") in
      let parameters := dict_get d "parameters" (PyDict []) in
      (if eq_str operation "cost-report" then generate_cost_report parameters
       else if eq_str operation "infra-audit" then audit_infrastructure parameters
       else if eq_str operation "user-stats" then analyze_user_stats parameters
       else
         ret (PyDict [("status", PyStr "unknown_operation");
                      ("message", PyStr ("Unknown operation: " +:+ py_str operation))]))
        w0.
Proof.
  unfold process_data, method_get, bind, ret. simpl. step_log.
  exists w0. split; [done|]. reflexivity.
Qed.

Lemma quiet_sym w1 w2 : quiet w1 w2 -> quiet w2 w1.
Proof. intros (c & t & sc). by repeat split. Qed.

Lemma stale_quiet name w w0 : quiet w w0 -> stale name w -> stale name w0.
Proof. unfold stale. intros (c & t & _). by rewrite c, t. Qed.

(** The answer of [get_secret] depends on the cache, the clock and the
    store only, not on what has been printed. *)
Lemma get_secret_quiet name w w0 r w1 :
  quiet w w0 -> get_secret name w = (r, w1) ->
  exists w1', get_secret name w0 = (r, w1').
Proof.
  intros Hq G. pose proof Hq as (c & t & sc).
  destruct (fresh_or_stale name w) as [(e & E & Hlt)|St].
  - destruct (get_secret_hit name e w E Hlt) as (w2 & G2 & _).
    destruct (get_secret_hit name e w0) as (w3 & G3 & _).
    { by rewrite c. } { by rewrite t. }
    rewrite G in G2. inversion G2; subst. eauto.
  - destruct (get_secret_miss name w St) as (w2 & _ & O2).
    destruct (get_secret_miss name w0 (stale_quiet name w w0 Hq St)) as (w3 & _ & O3).
    rewrite sc in O3.
    destruct (ssm_get_parameter _ _ _) as [r0|m|cl m];
      [destruct (response_value _); [destruct O2 as [O2 _]; destruct O3 as [O3 _]|]| |];
      rewrite G in O2; inversion O2; subst; eauto.
Qed.

Lemma process_data_else d w :
  let operation := dict_get d "operation" (PyStr "unknown") in
  eq_str operation "cost-report" = false ->
  eq_str operation "infra-audit" = false ->
  eq_str operation "user-stats" = false ->
  exists w',
    process_data (PyDict d) w =
      (Return (PyDict [("status", PyStr "unknown_operation");
                       ("message", PyStr ("Unknown operation: " +:+ py_str operation))]),
       w') /\
    quiet w w'.
Proof.
  intros operation E1 E2 E3.
  destruct (process_data_dict d w) as (w0 & Hq & ->). simpl.
  fold operation. rewrite E1, E2, E3. by exists w0.
Qed.

Lemma process_data_ext d1 d2 w :
  dict_lookup d1 "operation" = dict_lookup d2 "operation" ->
  dict_lookup d1 "parameters" = dict_lookup d2 "parameters" ->
  process_data (PyDict d1) w = process_data (PyDict d2) w.
Proof.
  intros E1 E2. unfold process_data, method_get, dict_get.
  by rewrite E1, E2.
Qed.

(** ** Notification *)

Lemma send_notification_quiet result callback_url w :
  exists w', send_notification result callback_url w = (Return tt, w') /\ quiet w w'.
Proof.
  unfold send_notification.
  destruct (negb (truthy callback_url)); [apply log_quiet|].
  unfold try_except.
  destruct (slice20 callback_url) as [e|prefix].
  - unfold raise. simpl. apply log_quiet.
  - step_log. eauto.
Qed.

(** ** Handler *)

Lemma prelude_quiet d w :
  exists w0, prelude d w = (Return tt, w0) /\ quiet w w0.
Proof.
  unfold prelude, bind. step_log. step_log.
  eexists. split; [reflexivity|]. by eapply quiet_trans.
Qed.

Lemma handler_try_dict d w w0 :
  prelude d w = (Return tt, w0) ->
  match process_data (PyDict d) w0 with
  | (Return result, w1) =>
      exists w',
        handler_try (PyDict d) w =
          (Return (PyDict [("statusCode", PyInt 200);
                           ("body", PyStr (json_dumps result))]), w') /\
        quiet w1 w'
  | (Raise e, w1) => handler_try (PyDict d) w = (Raise e, w1)
  end.
Proof.
  unfold prelude, bind. intros P.
  destruct (log "INFO" "Processor handler invoked" w) as [[[]|e0] wa] eqn:La;
    [|discriminate].
  destruct (log "INFO" _ wa) as [[[]|e1] wb] eqn:Lb; [|discriminate].
  inversion P; subst wb.
  destruct (process_data (PyDict d) w0) as [[result|e] w1] eqn:PD.
  - destruct (send_notification_quiet result (dict_get d "callbackUrl" PyNone) w1)
      as (w2 & SN & Hq2).
    destruct (log_quiet "INFO" "Processing completed successfully" w2)
      as (w3 & L3 & Hq3).
    exists w3. split; [|by eapply quiet_trans].
    unfold handler_try, method_get, bind, ret. simpl.
    by rewrite La, Lb, PD, SN, L3.
  - unfold handler_try, method_get, bind, ret. simpl.
    by rewrite La, Lb, PD.
Qed.

Lemma handler_of_try event context w :
  match handler_try event w with
  | (Return response, w1) => handler event context w = (Return response, w1)
  | (Raise e, w1) =>
      exists w', handler event context w = (Return internal_error_response, w') /\
                 quiet w1 w'
  end.
Proof.
  unfold handler, try_except.
  destruct (handler_try event w) as [[response|e] w1]; [done|].
  simpl. unfold bind. step_log. unfold ret. eauto.
Qed.

(** C5. [handler] takes the intent as a parsed [dict] or as its JSON
    text, with the same outcome.  It never raises: whatever exception
    leaves the [try] block (parse, dispatch, notify), and in particular
    the [JSONDecodeError] of a malformed text, the caller gets status
    code 500 with the serialized body [{status: error, message:
    Internal processing error}], in which nothing of the exception
    appears. *)
Theorem handler_boundary event context w :
  (exists response w', handler event context w = (Return response, w')) /\
  (forall e w1,
     handler_try event w = (Raise e, w1) ->
     exists w',
       handler event context w =
         (Return
            (PyDict [("statusCode", PyInt 500);
                     ("body",
                      PyStr (json_dumps
                               (PyDict [("status", PyStr "error");
                                        ("message", PyStr "Internal processing error")])))]),
          w')) /\
  (forall s msg,
     event = PyStr s -> json_loads s = inl msg ->
     exists w',
       handler event context w =
         (Return
            (PyDict [("statusCode", PyInt 500);
                     ("body",
                      PyStr (json_dumps
                               (PyDict [("status", PyStr "error");
                                        ("message", PyStr "Internal processing error")])))]),
          w')) /\
  (forall s d,
     event = PyStr s -> json_loads s = inr (PyDict d) ->
     handler event context w = handler (PyDict d) context w).
Proof.
  pose proof (handler_of_try event context w) as Hb.
  split; [|split; [|split]].
  - destruct (handler_try event w) as [[response|e] w1]; [eauto|].
    destruct Hb as (w' & Hb & _). eauto.
  - intros e w1 T. rewrite T in Hb. destruct Hb as (w' & Hb & _). eauto.
  - intros s msg -> L.
    assert (exists w1, handler_try (PyStr s) w = (Raise (JSONDecodeError msg), w1))
      as (w1 & T).
    { unfold handler_try, bind. step_log. rewrite L. unfold raise. eauto. }
    rewrite T in Hb. destruct Hb as (w' & Hb & _). eauto.
  - intros s d -> L. unfold handler, handler_try. by rewrite L.
Qed.

(** C6. For an intent whose operation is a name other than
    [cost-report], [infra-audit] and [user-stats], [process_data]
    returns, without raising and without touching the secrets,
    [{status: unknown_operation, message: Unknown operation: <name>}];
    for [frobnicate] the message is [Unknown operation: frobnicate]. *)
Theorem process_data_unknown_operation d w :
  (forall op,
     dict_lookup d "operation" = Some (PyStr op) ->
     op <> "cost-report" -> op <> "infra-audit" -> op <> "user-stats" ->
     exists w',
       process_data (PyDict d) w =
         (Return (PyDict [("status", PyStr "unknown_operation");
                          ("message", PyStr ("Unknown operation: " +:+ op))]), w') /\
       quiet w w') /\
  (dict_lookup d "operation" = Some (PyStr "frobnicate") ->
   exists w',
     process_data (PyDict d) w =
       (Return (PyDict [("status", PyStr "unknown_operation");
                        ("message", PyStr "Unknown operation: frobnicate")]), w') /\
     quiet w w').
Proof.
  assert (forall op,
     dict_lookup d "operation" = Some (PyStr op) ->
     op <> "cost-report" -> op <> "infra-audit" -> op <> "user-stats" ->
     exists w',
       process_data (PyDict d) w =
         (Return (PyDict [("status", PyStr "unknown_operation");
                          ("message", PyStr ("Unknown operation: " +:+ op))]), w') /\
       quiet w w') as Hgen.
  { intros op E N1 N2 N3.
    pose proof (process_data_else d w) as PE.
    unfold dict_get in PE. rewrite E in PE. simpl in PE.
    destruct PE as (w' & P & Hq); try (by apply String.eqb_neq). eauto. }
  split; [exact Hgen|].
  intros E. by apply (Hgen "frobnicate").
Qed.

(** C7. For the operation [cost-report] with parameters
    [{period: last_7_days}]: when the retrieval of the API key succeeds,
    [process_data] returns [{status: success, report: {period:
    last_7_days, ...}, generated_at}]; when it raises, whatever the
    exception, [process_data] does not raise and returns
    [{status: error, message: Failed to retrieve API credentials}]. *)
Theorem cost_report_envelope d params w :
  dict_lookup d "operation" = Some (PyStr "cost-report") ->
  dict_lookup d "parameters" = Some (PyDict params) ->
  dict_lookup params "period" = Some (PyStr "last_7_days") ->
  (forall api_key w1,
     get_api_key w = (Return api_key, w1) ->
     exists generated_at w',
       process_data (PyDict d) w =
         (Return
            (PyDict
               [("status", PyStr "success");
                ("report",
                 PyDict [("period", PyStr "last_7_days");
                         ("total_cost", PyFloat 1234.56);
                         ("breakdown",
                          PyDict [("compute", PyFloat 800.00);
                                  ("storage", PyFloat 234.56);
                                  ("network", PyFloat 200.00)])]);
                ("generated_at", PyStr generated_at)]), w')) /\
  (forall e w1,
     get_api_key w = (Raise e, w1) ->
     exists w',
       process_data (PyDict d) w =
         (Return (PyDict [("status", PyStr "error");
                          ("message", PyStr "Failed to retrieve API credentials")]),
          w')).
Proof.
  intros Eop Epar Eper.
  destruct (process_data_dict d w) as (wa & Hqa & ->).
  unfold dict_get. rewrite Eop, Epar. simpl.
  destruct (generate_cost_report_run (PyDict params) wa)
    as (w0 & r & w1 & Hq0 & G & Hrun).
  assert (quiet w w0) as Hq by (by eapply quiet_trans).
  split.
  - intros api_key w2 G2.
    destruct (get_secret_quiet _ w w0 _ _ Hq G2) as (w3 & G3).
    unfold get_api_key in G. rewrite G3 in G. inversion G; subst.
    destruct Hrun as (generated_at & w' & R & _).
    unfold dict_get in R. rewrite Eper in R. simpl in R. eauto.
  - intros e w2 G2.
    destruct (get_secret_quiet _ w w0 _ _ Hq G2) as (w3 & G3).
    unfold get_api_key in G. rewrite G3 in G. inversion G; subst.
    destruct Hrun as (w' & R & _). eauto.
Qed.

(** C8. [send_notification] never raises and changes nothing but the
    log, whatever the callback address.  With the address absent (or
    otherwise false) it only logs that the notification is skipped; with
    an address whose slice fails, the failure is logged at [ERROR] and
    swallowed.  The response of [handler] is the same for two intents
    that differ only in [callbackUrl], and so are the secrets left
    behind. *)
Theorem send_notification_frame result callback_url w :
  (exists w', send_notification result callback_url w = (Return tt, w') /\
              quiet w w') /\
  (truthy callback_url = false ->
   send_notification result callback_url w =
     log "INFO" "No callback URL provided, skipping notification" w) /\
  (forall e,
     truthy callback_url = true -> slice20 callback_url = inl e ->
     send_notification result callback_url w =
       log "ERROR" ("Failed to send notification: " +:+ exn_str e) w) /\
  (forall d1 d2 context,
     (forall key, key <> "callbackUrl" -> dict_lookup d1 key = dict_lookup d2 key) ->
     fst (handler (PyDict d1) context w) = fst (handler (PyDict d2) context w) /\
     quiet (snd (handler (PyDict d1) context w)) (snd (handler (PyDict d2) context w))).
Proof.
  split; [apply send_notification_quiet|].
  split; [|split].
  - intros F. unfold send_notification. by rewrite F.
  - intros e T S. unfold send_notification, try_except. by rewrite T, S.
  - intros d1 d2 context Hd.
    assert (prelude d1 w = prelude d2 w) as EP.
    { unfold prelude, dict_get. by rewrite (Hd "id"). }
    assert (forall w0, process_data (PyDict d1) w0 = process_data (PyDict d2) w0) as EPD.
    { intros w0. apply process_data_ext; by apply Hd. }
    destruct (prelude_quiet d1 w) as (w0 & P1 & _).
    pose proof P1 as P2. rewrite EP in P2.
    pose proof (handler_try_dict d1 w w0 P1) as T1.
    pose proof (handler_try_dict d2 w w0 P2) as T2.
    rewrite EPD in T1.
    pose proof (handler_of_try (PyDict d1) context w) as B1.
    pose proof (handler_of_try (PyDict d2) context w) as B2.
    destruct (process_data (PyDict d2) w0) as [[r|e] w1].
    + destruct T1 as (w1' & T1 & Q1). destruct T2 as (w2' & T2 & Q2).
      rewrite T1 in B1. rewrite T2 in B2. rewrite B1, B2. simpl.
      split; [done|]. eapply quiet_trans; [by apply quiet_sym|done].
    + rewrite T1 in B1. rewrite T2 in B2.
      destruct B1 as (w1' & -> & Q1). destruct B2 as (w2' & -> & Q2). simpl.
      split; [done|]. eapply quiet_trans; [by apply quiet_sym|done].
Qed.

(** C9. Whatever the parameters, [audit_infrastructure] and
    [analyze_user_stats] return, without raising, [status: success]
    with their literal payload and the instant of the call, and leave
    the cache, the clock of the cache and the store untouched;
    [generate_cost_report] always reads the cache or asks the store. *)
Theorem stub_handlers_keep_off_secrets parameters w :
  (exists audited_at w',
     audit_infrastructure parameters w =
       (Return
          (PyDict
             [("status", PyStr "success");
              ("audit",
               PyDict [("checks_passed", PyInt 42);
                       ("checks_failed", PyInt 3);
                       ("warnings", PyInt 7);
                       ("findings",
                        PyList [PyStr "S3 bucket public access detected";
                                PyStr "Unused security groups found";
                                PyStr "EC2 instances without tags"])]);
              ("audited_at", PyStr audited_at)]), w') /\
     quiet w w') /\
  (exists analyzed_at w',
     analyze_user_stats parameters w =
       (Return
          (PyDict
             [("status", PyStr "success");
              ("stats",
               PyDict [("active_users", PyInt 156);
                       ("commands_executed", PyInt 2341);
                       ("most_used_command", PyStr "cost-report")]);
              ("analyzed_at", PyStr analyzed_at)]), w') /\
     quiet w w') /\
  (forall r w', generate_cost_report parameters w = (r, w') -> ~ quiet w w').
Proof.
  split; [apply audit_infrastructure_run|].
  split; [apply analyze_user_stats_run|].
  intros r w' R Hq.
  destruct (generate_cost_report_run parameters w)
    as (w0 & r0 & w1 & Hq0 & G & Hrun).
  apply (get_secret_not_quiet _ _ _ _ G).
  assert (quiet w1 w') as Hq1.
  { destruct r0 as [api_key|e].
    - destruct parameters;
        first [destruct Hrun as (x & w2 & R2 & Hq2)];
        rewrite R in R2; inversion R2; by subst.
    - destruct Hrun as (w2 & R2 & Hq2). rewrite R in R2. inversion R2. by subst. }
  eapply quiet_trans; [by apply quiet_sym|].
  eapply quiet_trans; [exact Hq|]. by apply quiet_sym.
Qed.

(** C10. An intent without the [operation] field is dispatched under the
    name [unknown]: [process_data] returns [{status: unknown_operation,
    message: Unknown operation: unknown}] and [handler] answers with
    status code 200 and that envelope as body. *)
Theorem missing_operation_is_unknown d context w :
  dict_lookup d "operation" = None ->
  (exists w',
     process_data (PyDict d) w =
       (Return (PyDict [("status", PyStr "unknown_operation");
                        ("message", PyStr "Unknown operation: unknown")]), w')) /\
  (exists w',
     handler (PyDict d) context w =
       (Return
          (PyDict
             [("statusCode", PyInt 200);
              ("body",
               PyStr (json_dumps
                        (PyDict [("status", PyStr "unknown_operation");
                                 ("message", PyStr "Unknown operation: unknown")])))]),
        w')).
Proof.
  intros E.
  assert (forall w0, exists w',
     process_data (PyDict d) w0 =
       (Return (PyDict [("status", PyStr "unknown_operation");
                        ("message", PyStr "Unknown operation: unknown")]), w')) as PD.
  { intros w0. pose proof (process_data_else d w0) as PE.
    unfold dict_get in PE. rewrite E in PE. simpl in PE.
    destruct PE as (w' & P & _); try done. eauto. }
  split; [apply PD|].
  destruct (prelude_quiet d w) as (w0 & P & _).
  pose proof (handler_try_dict d w w0 P) as T.
  destruct (PD w0) as (w1 & ->) in T.
  destruct T as (w' & T & _).
  pose proof (handler_of_try (PyDict d) context w) as B.
  rewrite T in B. eauto.
Qed.

(** ** Logging levels *)

Lemma levels_lookup (name : string) :
  levels !! name =
    if decide (name = "DEBUG") then Some 0%Z
    else if decide (name = "INFO") then Some 1%Z
    else if decide (name = "WARN") then Some 2%Z
    else if decide (name = "ERROR") then Some 3%Z
    else None.
Proof.
  unfold levels. simpl. rewrite !lookup_insert, lookup_empty.
  repeat case_decide; congruence.
Qed.

(** X1. Whatever [LOG_LEVEL] is set to, an [ERROR] message is printed.
    A [DEBUG] message is printed when [LOG_LEVEL] is [DEBUG] and dropped,
    the world unchanged, otherwise.  A message whose level is not in the
    table counts as [INFO]: it is dropped exactly when [LOG_LEVEL] is
    [WARN] or [ERROR]. *)
Theorem log_threshold message w :
  log "ERROR" message w = (Return tt, printed "ERROR" message w) /\
  (LOG_LEVEL = "DEBUG" ->
   log "DEBUG" message w = (Return tt, printed "DEBUG" message w)) /\
  (LOG_LEVEL <> "DEBUG" -> log "DEBUG" message w = (Return tt, w)) /\
  (forall level,
     levels !! level = None ->
     (LOG_LEVEL = "WARN" \/ LOG_LEVEL = "ERROR" ->
      log level message w = (Return tt, w)) /\
     (LOG_LEVEL <> "WARN" -> LOG_LEVEL <> "ERROR" ->
      log level message w = (Return tt, printed level message w))).
Proof.
  with_strategy transparent [log] (unfold log).
  pose proof (levels_lookup LOG_LEVEL) as HL.
  split; [|split; [|split]].
  - rewrite (levels_lookup "ERROR"). simpl.
    rewrite HL. by repeat case_decide.
  - intros E. rewrite (levels_lookup "DEBUG"), E, (levels_lookup "DEBUG"). done.
  - intros N. rewrite (levels_lookup "DEBUG"). simpl.
    rewrite HL. by repeat case_decide.
  - intros level E. rewrite E. simpl. split.
    + intros [W|W]; rewrite W; by rewrite levels_lookup.
    + intros N1 N2. rewrite HL. by repeat case_decide.
Qed.

(** ** What get_secret leaves behind *)

(** The world after a stale read, by what the store answers. *)
Lemma get_secret_miss_world name w :
  stale name w ->
  exists r w',
    get_secret name w = (r, w') /\
    ssm_calls w' = (ssm_calls w ++ [(name, true)])%list /\
    match response_value (ssm_get_parameter (length (ssm_calls w)) name true) with
    | Some v =>
        r = Return v /\
        _secret_cache w' =
          {| _cache :=
               <[name := {| value_ := v;
                            expires_at := clock (fetch_read name w)
                                          + inject_Z (_ttl_seconds (_secret_cache w)) |}]>
                 (_cache (_secret_cache w));
             _ttl_seconds := _ttl_seconds (_secret_cache w) |} /\
        time_reads w' = S (fetch_read name w)
    | None =>
        (exists e, r = Raise e) /\
        _secret_cache w' = _secret_cache (without name w) /\
        time_reads w' = fetch_read name w
    end.
Proof.
  intros St.
  destruct (SecretCache_get_stale name w St) as (w1 & G & c1 & t1 & s1).
  destruct (ssm_get_parameter _ _ _) as [[[[[v|]]|]]|msg|cls msg] eqn:O; simpl;
    unfold get_secret, bind; rewrite G; step_log;
    destruct Hq as (c2 & t2 & s2);
    unfold try_except, bind, ssm_client_get_parameter;
    rewrite s2, s1, O; simpl.
  - unfold SecretCache_set, bind, time_time, ret. simpl.
    eexists _, _. split; [reflexivity|]. simpl.
    rewrite c2, c1, t2, t1. simpl. rewrite insert_delete_eq. done.
  - eexists _, _. split; [reflexivity|]. simpl.
    rewrite c2, c1, t2, t1. eauto.
  - eexists _, _. split; [reflexivity|]. simpl.
    rewrite c2, c1, t2, t1. eauto.
  - step_log. destruct Hq as (c3 & t3 & s3). unfold raise.
    eexists _, _. split; [reflexivity|].
    rewrite s3, c3, t3. simpl. rewrite c2, c1, t2, t1. eauto.
  - eexists _, _. split; [reflexivity|]. simpl.
    rewrite c2, c1, t2, t1. eauto.
Qed.

Lemma get_secret_others name w r w' :
  get_secret name w = (r, w') ->
  _ttl_seconds (_secret_cache w') = _ttl_seconds (_secret_cache w) /\
  (forall other, other <> name ->
     _cache (_secret_cache w') !! other = _cache (_secret_cache w) !! other).
Proof.
  intros G.
  destruct (fresh_or_stale name w) as [(e & E & Hlt)|St].
  - destruct (get_secret_hit name e w E Hlt) as (w1 & G1 & c & _).
    rewrite G in G1. inversion G1; subst. by rewrite c.
  - destruct (get_secret_miss_world name w St) as (r1 & w1 & G1 & _ & Hw).
    rewrite G in G1. inversion G1; subst r1 w1.
    destruct (response_value _) as [v|].
    + destruct Hw as (_ & -> & _). simpl. split; [done|].
      intros other Hne. by rewrite lookup_insert_ne.
    + destruct Hw as (_ & -> & _). simpl. split; [done|].
      intros other Hne. by rewrite lookup_delete_ne.
Qed.

(** X2. [get_secret name] leaves every entry of the cache under another
    name as it was, and never changes the ttl of the cache, whether it
    returns or raises. *)
Theorem get_secret_frame name w r w' :
  get_secret name w = (r, w') ->
  _ttl_seconds (_secret_cache w') = _ttl_seconds (_secret_cache w) /\
  (forall other, other <> name ->
     _cache (_secret_cache w') !! other = _cache (_secret_cache w) !! other).
Proof. apply get_secret_others. Qed.

(** X3. When the read is stale and the store gives no value (it refuses,
    fails, or answers without one), [get_secret] raises and leaves no
    entry under the name: an expired value is dropped, not served, and
    the next call asks the store again. *)
Theorem failed_fetch_not_cached name w :
  stale name w ->
  response_value (ssm_get_parameter (length (ssm_calls w)) name true) = None ->
  exists e w',
    get_secret name w = (Raise e, w') /\
    _cache (_secret_cache w') !! name = None /\
    forall r w'',
      get_secret name w' = (r, w'') ->
      ssm_calls w'' = (ssm_calls w ++ [(name, true); (name, true)])%list.
Proof.
  intros St V.
  destruct (get_secret_miss_world name w St) as (r & w' & G & sc & Hw).
  rewrite V in Hw. destruct Hw as ((e & ->) & c & _).
  assert (_cache (_secret_cache w') !! name = None) as E.
  { rewrite c. simpl. apply lookup_delete_eq. }
  exists e, w'. split; [done|]. split; [done|].
  intros r2 w'' G2.
  assert (stale name w') as St2 by (unfold stale; by rewrite E).
  destruct (get_secret_miss_world name w' St2) as (r3 & w3 & G3 & sc3 & _).
  rewrite G2 in G3. inversion G3; subst.
  rewrite sc3, sc, <- app_assoc. done.
Qed.

(** ** The two accessors *)

Lemma append_cancel (p a b : string) : p +:+ a = p +:+ b -> a = b.
Proof.
  induction p as [|c p IH]; simpl; [done|].
  intros E. injection E as E. by apply IH.
Qed.

Lemma paths_differ (env : string) :
  "/slack-bot/" +:+ env +:+ "/api-key" <> "/slack-bot/" +:+ env +:+ "/webhook-url".
Proof.
  intros E. apply append_cancel, append_cancel in E. discriminate.
Qed.

(** X4. For every value of [ENVIRONMENT] the API key and the webhook URL
    are kept under different names: retrieving one, with or without
    success, leaves the cache entry of the other as it was. *)
Theorem accessors_keep_apart w r w' :
  (get_api_key w = (r, w') ->
   _cache (_secret_cache w') !! ("/slack-bot/" +:+ ENVIRONMENT +:+ "/webhook-url")
   = _cache (_secret_cache w) !! ("/slack-bot/" +:+ ENVIRONMENT +:+ "/webhook-url")) /\
  (get_webhook_url w = (r, w') ->
   _cache (_secret_cache w') !! ("/slack-bot/" +:+ ENVIRONMENT +:+ "/api-key")
   = _cache (_secret_cache w) !! ("/slack-bot/" +:+ ENVIRONMENT +:+ "/api-key")).
Proof.
  split; intros G; unfold get_api_key, get_webhook_url in G;
    destruct (get_secret_others _ _ _ _ G) as [_ Hother]; apply Hother.
  - intros E. by apply (paths_differ ENVIRONMENT).
  - apply paths_differ.
Qed.

(** ** Overwriting an entry *)

(** X5. A second [set] under the same key replaces the value and renews
    the expiry: a [get] that reads an instant before the second expiry
    returns the second value, even past the first expiry.  A [set] under
    another key leaves the entry alone: [get] still returns the first
    value before its expiry. *)
Theorem SecretCache_set_overwrites k v1 v2 k' v' w :
  let ttl := inject_Z (_ttl_seconds (_secret_cache w)) in
  ((clock (S (S (time_reads w))) < clock (S (time_reads w)) + ttl)%Q ->
   exists w',
     (SecretCache_set k v1 ;;; SecretCache_set k v2 ;;; SecretCache_get k) w
       = (Return (Some v2), w')) /\
  (k' <> k ->
   (clock (S (S (time_reads w))) < clock (time_reads w) + ttl)%Q ->
   exists w',
     (SecretCache_set k v1 ;;; SecretCache_set k' v' ;;; SecretCache_get k) w
       = (Return (Some v1), w')).
Proof.
  intros ttl.
  destruct (SecretCache_set_spec k v1 w) as (w1 & S1 & c1 & ttl1 & t1 & _).
  split.
  - intros Hlt.
    destruct (SecretCache_set_spec k v2 w1) as (w2 & S2 & c2 & ttl2 & t2 & _).
    destruct (SecretCache_get_fresh k
                {| value_ := v2; expires_at := (clock (S (time_reads w)) + ttl)%Q |} w2)
      as (w3 & G & _).
    { rewrite c2, t1, ttl1. apply lookup_insert_eq. }
    { rewrite t2, t1. exact Hlt. }
    exists w3. unfold bind. rewrite S1, S2. exact G.
  - intros Hne Hlt.
    destruct (SecretCache_set_spec k' v' w1) as (w2 & S2 & c2 & ttl2 & t2 & _).
    destruct (SecretCache_get_fresh k
                {| value_ := v1; expires_at := (clock (time_reads w) + ttl)%Q |} w2)
      as (w3 & G & _).
    { rewrite c2, lookup_insert_ne by done. rewrite c1. apply lookup_insert_eq. }
    { rewrite t2, t1. exact Hlt. }
    exists w3. unfold bind. rewrite S1, S2. exact G.
Qed.

(** ** What the handler does to the secrets *)

Lemma footprint_quiet_l w wa w' : quiet w wa -> footprint wa w' -> footprint w w'.
Proof.
  intros Hq [Hq'|(w0 & r0 & w1 & Q0 & G & Q1)].
  - left. by eapply quiet_trans.
  - right. exists w0, r0, w1. split; [by eapply quiet_trans|done].
Qed.

Lemma footprint_quiet_r w w1 w' : footprint w w1 -> quiet w1 w' -> footprint w w'.
Proof.
  intros [Hq'|(w0 & r0 & wb & Q0 & G & Q1)] Hq.
  - left. by eapply quiet_trans.
  - right. exists w0, r0, wb. split; [done|]. split; [done|]. by eapply quiet_trans.
Qed.

Lemma generate_cost_report_footprint parameters w r w' :
  generate_cost_report parameters w = (r, w') -> footprint w w'.
Proof.
  intros R.
  destruct (generate_cost_report_run parameters w) as (w0 & r0 & w1 & Q0 & G & Hrun).
  right. exists w0, r0, w1. split; [done|]. split; [done|].
  destruct r0 as [api_key|e].
  - destruct parameters; destruct Hrun as (x & w2 & R2 & Q2);
      rewrite R in R2; inversion R2; by subst.
  - destruct Hrun as (w2 & R2 & Q2). rewrite R in R2. inversion R2. by subst.
Qed.

Lemma process_data_footprint intent w r w' :
  process_data intent w = (r, w') -> footprint w w'.
Proof.
  destruct intent as [| | | | | |d];
    try (unfold process_data, method_get, bind, raise; simpl;
         intros R; inversion R; subst; left; apply quiet_refl).
  destruct (process_data_dict d w) as (w0 & Q0 & ->). simpl.
  intros R. apply (footprint_quiet_l _ w0); [done|].
  destruct (eq_str _ "cost-report"); [by eapply generate_cost_report_footprint|].
  destruct (eq_str _ "infra-audit").
  { destruct (audit_infrastructure_run (dict_get d "parameters" (PyDict [])) w0)
      as (x & w2 & R2 & Q2).
    rewrite R in R2. inversion R2; subst. by left. }
  destruct (eq_str _ "user-stats").
  { destruct (analyze_user_stats_run (dict_get d "parameters" (PyDict [])) w0)
      as (x & w2 & R2 & Q2).
    rewrite R in R2. inversion R2; subst. by left. }
  unfold ret in R. inversion R; subst. left. apply quiet_refl.
Qed.

(** An event is a [dict], stands for one, or makes the [try] block raise
    before anything but a log line has happened. *)
Lemma handler_try_cases event w :
  (exists d, handler_try event w = handler_try (PyDict d) w) \/
  (exists e w0, handler_try event w = (Raise e, w0) /\ quiet w w0).
Proof.
  destruct event as [| | | |s| |d];
    try (right; unfold handler_try, method_get, bind, raise, ret; simpl;
         step_log; solve [eauto]).
  - destruct (json_loads s) as [msg|doc] eqn:L.
    + right. unfold handler_try, bind, raise. step_log. rewrite L. eauto.
    + destruct doc as [| | | | | |d];
        try (right; unfold handler_try, method_get, bind, raise, ret; simpl;
             step_log; rewrite L; simpl; solve [eauto]).
      left. exists d. unfold handler_try. by rewrite L.
  - left. by exists d.
Qed.

Lemma handler_footprint event context w r w' :
  handler event context w = (r, w') -> footprint w w'.
Proof.
  intros Hh.
  pose proof (handler_of_try event context w) as B.
  assert (forall r1 w1, handler_try event w = (r1, w1) -> footprint w w1) as T.
  { intros r1 w1 T1.
    destruct (handler_try_cases event w) as [(d & Ed)|(e & w0 & E0 & Q0)].
    - rewrite Ed in T1.
      destruct (prelude_quiet d w) as (w0 & P & Q0).
      pose proof (handler_try_dict d w w0 P) as TD.
      destruct (process_data (PyDict d) w0) as [[result|e] wp] eqn:PD.
      + destruct TD as (w2 & T2 & Q2). rewrite T1 in T2. inversion T2; subst.
        apply (footprint_quiet_l _ w0); [done|].
        eapply footprint_quiet_r; [by eapply process_data_footprint|done].
      + rewrite T1 in TD. inversion TD; subst.
        apply (footprint_quiet_l _ w0); [done|].
        by eapply process_data_footprint.
    - rewrite T1 in E0. inversion E0; subst. by left. }
  destruct (handler_try event w) as [[response|e] w1] eqn:HT.
  - rewrite Hh in B. inversion B; subst. by eapply T.
  - destruct B as (w2 & B & Q2). rewrite Hh in B. inversion B; subst.
    eapply footprint_quiet_r; [by eapply T|done].
Qed.

Lemma get_secret_calls name w r w' :
  get_secret name w = (r, w') ->
  (stale name w /\ ssm_calls w' = (ssm_calls w ++ [(name, true)])%list) \/
  (~ stale name w /\ ssm_calls w' = ssm_calls w).
Proof.
  intros G.
  destruct (fresh_or_stale name w) as [(e & E & Hlt)|St].
  - right. destruct (get_secret_hit name e w E Hlt) as (w1 & G1 & _ & sc & _).
    rewrite G in G1. inversion G1; subst.
    split; [by eapply fresh_not_stale|done].
  - left. destruct (get_secret_miss_world name w St) as (r1 & w1 & G1 & sc & _).
    rewrite G in G1. inversion G1; subst. done.
Qed.

(** X6. Whatever the event, one invocation of [handler] sends at most
    one request to the store, and that request is for
    [/slack-bot/<ENVIRONMENT>/api-key] with decryption on: nothing in
    the event chooses the name.  When the cache holds an entry for the
    API key that has not expired at the instant next read, no request
    is sent at all. *)
Theorem handler_store_requests event context w r w' :
  handler event context w = (r, w') ->
  (ssm_calls w' = ssm_calls w \/
   ssm_calls w' =
     (ssm_calls w ++ [("/slack-bot/" +:+ ENVIRONMENT +:+ "/api-key", true)])%list) /\
  (forall e,
     _cache (_secret_cache w) !! ("/slack-bot/" +:+ ENVIRONMENT +:+ "/api-key") = Some e ->
     (clock (time_reads w) < expires_at e)%Q ->
     ssm_calls w' = ssm_calls w).
Proof.
  intros Hh.
  destruct (handler_footprint _ _ _ _ _ Hh) as [(_ & _ & sc)|(w0 & r0 & w1 & Q0 & G & Q1)].
  { split; [by left|done]. }
  pose proof Q0 as (c0 & t0 & s0). destruct Q1 as (_ & _ & s1).
  unfold get_api_key in G.
  destruct (get_secret_calls _ _ _ _ G) as [[St sc]|[St sc]];
    rewrite s1, sc, s0.
  - split; [by right|].
    intros e E Hlt. exfalso.
    apply (fresh_not_stale _ e w E Hlt).
    by apply (stale_quiet _ w0 w); [apply quiet_sym|].
  - split; [by left|done].
Qed.

(** ** Invariants of the cache *)

Lemma footprint_preserves (P : World -> Prop) :
  (forall w w', quiet w w' -> P w -> P w') ->
  (forall name w r w', get_secret name w = (r, w') -> P w -> P w') ->
  forall w w', footprint w w' -> P w -> P w'.
Proof.
  intros PQ PG w w' [Hq|(w0 & r0 & w1 & Q0 & G & Q1)] Pw.
  - by eapply PQ.
  - eapply PQ; [exact Q1|]. eapply PG; [exact G|]. by eapply PQ.
Qed.

Lemma fetch_read_le name w : (time_reads w <= fetch_read name w)%nat.
Proof. unfold fetch_read. destruct (_ !! _); lia. Qed.

Lemma expiry_wf_quiet w w' : quiet w w' -> expiry_wf w -> expiry_wf w'.
Proof. unfold expiry_wf. intros (c & t & _). by rewrite c, t. Qed.

Lemma get_secret_expiry_wf name w r w' :
  get_secret name w = (r, w') -> expiry_wf w -> expiry_wf w'.
Proof.
  intros G Hwf.
  destruct (fresh_or_stale name w) as [(e & E & Hlt)|St].
  - destruct (get_secret_hit name e w E Hlt) as (w1 & G1 & c & _ & t).
    rewrite G in G1. inversion G1; subst w1.
    intros k e' E'. rewrite c in E'. destruct (Hwf k e' E') as (n & Hn & Hexp).
    exists n. rewrite t, c. split; [lia|done].
  - destruct (get_secret_miss_world name w St) as (r1 & w1 & G1 & _ & Hw).
    rewrite G in G1. inversion G1; subst r1 w1.
    pose proof (fetch_read_le name w) as Hle.
    destruct (response_value _) as [v|].
    + destruct Hw as (_ & c & t). intros k e' E'. rewrite c in E'. simpl in E'.
      rewrite c, t. simpl.
      destruct (decide (name = k)) as [->|Hne].
      * rewrite lookup_insert_eq in E'. inversion E'; subst e'. simpl.
        exists (fetch_read k w). split; [lia|done].
      * rewrite lookup_insert_ne in E' by done.
        destruct (Hwf k e' E') as (n & Hn & Hexp). exists n. split; [lia|done].
    + destruct Hw as (_ & c & t). intros k e' E'. rewrite c in E'. simpl in E'.
      rewrite c, t. simpl.
      destruct (decide (name = k)) as [->|Hne].
      * by rewrite lookup_delete_eq in E'.
      * rewrite lookup_delete_ne in E' by done.
        destruct (Hwf k e' E') as (n & Hn & Hexp). exists n. split; [lia|done].
Qed.

(** X7. Every entry of the cache expires exactly one ttl after an
    instant the process has read: this holds of the empty cache the
    process starts with and is kept by every invocation of [handler].
    Hence an entry still served at the instant read was written less
    than one ttl, by the readings of the clock, before. *)
Theorem expiry_invariant :
  expiry_wf boot /\
  (forall event context w r w',
     expiry_wf w -> handler event context w = (r, w') -> expiry_wf w') /\
  (forall w name e,
     expiry_wf w ->
     _cache (_secret_cache w) !! name = Some e ->
     (clock (time_reads w) < expires_at e)%Q ->
     exists n, (n < time_reads w)%nat /\
               (clock (time_reads w) - clock n
                < inject_Z (_ttl_seconds (_secret_cache w)))%Q).
Proof.
  split; [|split].
  - intros k e E. unfold boot in E. simpl in E. by rewrite lookup_empty in E.
  - intros event context w r w' Hwf Hh.
    eapply (footprint_preserves expiry_wf);
      [apply expiry_wf_quiet|apply get_secret_expiry_wf| |exact Hwf].
    by eapply handler_footprint.
  - intros w name e Hwf E Hlt.
    destruct (Hwf name e E) as (n & Hn & Hexp).
    exists n. split; [done|]. rewrite Hexp in Hlt. lra.
Qed.

Lemma sourced_quiet w w' : quiet w w' -> sourced w -> sourced w'.
Proof. unfold sourced. intros (c & _ & sc). by rewrite c, sc. Qed.

Lemma get_secret_sourced name w r w' :
  get_secret name w = (r, w') -> sourced w -> sourced w'.
Proof.
  intros G Hs.
  destruct (fresh_or_stale name w) as [(e & E & Hlt)|St].
  - destruct (get_secret_hit name e w E Hlt) as (w1 & G1 & c & sc & _).
    rewrite G in G1. inversion G1; subst w1.
    unfold sourced. by rewrite c, sc.
  - destruct (get_secret_miss_world name w St) as (r1 & w1 & G1 & sc & Hw).
    rewrite G in G1. inversion G1; subst r1 w1.
    assert (forall k e', _cache (_secret_cache w) !! k = Some e' ->
              exists i, ssm_calls w' !! i = Some (k, true) /\
                        response_value (ssm_get_parameter i k true) = Some (value_ e'))
      as Hold.
    { intros k e' E'. destruct (Hs k e' E') as (i & Hi & Hv).
      exists i. split; [|done]. rewrite sc. by apply lookup_app_l_Some. }
    destruct (response_value _) as [v|] eqn:V.
    + destruct Hw as (_ & c & _). intros k e' E'. rewrite c in E'. simpl in E'.
      destruct (decide (name = k)) as [->|Hne].
      * rewrite lookup_insert_eq in E'. inversion E'; subst e'. simpl.
        exists (length (ssm_calls w)). split; [|done].
        rewrite sc. apply list_lookup_middle. done.
      * rewrite lookup_insert_ne in E' by done. by apply Hold.
    + destruct Hw as (_ & c & _). intros k e' E'. rewrite c in E'. simpl in E'.
      destruct (decide (name = k)) as [->|Hne].
      * by rewrite lookup_delete_eq in E'.
      * rewrite lookup_delete_ne in E' by done. by apply Hold.
Qed.

(** X8. Every entry of the cache holds a value that the store gave, to a
    request already sent, for the very name the entry is kept under:
    this holds of the empty cache and is kept by every invocation of
    [handler].  Hence whatever [get_secret name] returns, from the cache
    or from the store, is an answer of the store to a request for
    [name] with decryption on. *)
Theorem cache_holds_store_answers :
  sourced boot /\
  (forall event context w r w',
     sourced w -> handler event context w = (r, w') -> sourced w') /\
  (forall name w v w',
     sourced w ->
     get_secret name w = (Return v, w') ->
     exists i, ssm_calls w' !! i = Some (name, true) /\
               response_value (ssm_get_parameter i name true) = Some v).
Proof.
  split; [|split].
  - intros k e E. unfold boot in E. simpl in E. by rewrite lookup_empty in E.
  - intros event context w r w' Hs Hh.
    eapply (footprint_preserves sourced);
      [apply sourced_quiet|apply get_secret_sourced| |exact Hs].
    by eapply handler_footprint.
  - intros name w v w' Hs G.
    destruct (fresh_or_stale name w) as [(e & E & Hlt)|St].
    + destruct (get_secret_hit name e w E Hlt) as (w1 & G1 & _ & sc & _).
      rewrite G in G1. inversion G1; subst. rewrite sc. by apply Hs.
    + destruct (get_secret_miss_world name w St) as (r1 & w1 & G1 & sc & Hw).
      rewrite G in G1. inversion G1; subst r1 w1.
      destruct (response_value _) as [v'|] eqn:V.
      * destruct Hw as (Ev & _). inversion Ev; subst v'.
        exists (length (ssm_calls w)). split; [|done].
        rewrite sc. apply list_lookup_middle. done.
      * destruct Hw as ((e & Ee) & _). discriminate.
Qed.

(** ** Status codes *)

(** [process_data] on a cost report, from a world that differs from [w]
    by printing only. *)
Lemma process_data_cost_report d w wq :
  quiet w wq ->
  eq_str (dict_get d "operation" (PyStr "unknown")) "cost-report" = true ->
  (forall api_key w1,
     get_api_key w = (Return api_key, w1) ->
     match dict_get d "parameters" (PyDict []) with
     | PyDict ps =>
         exists generated_at w',
           process_data (PyDict d) wq =
             (Return
                (PyDict
                   [("status", PyStr "success");
                    ("report",
                     PyDict [("period", dict_get ps "period" (PyStr "last_30_days"));
                             ("total_cost", PyFloat 1234.56);
                             ("breakdown",
                              PyDict [("compute", PyFloat 800.00);
                                      ("storage", PyFloat 234.56);
                                      ("network", PyFloat 200.00)])]);
                    ("generated_at", PyStr generated_at)]), w')
     | _ =>
         exists msg w', process_data (PyDict d) wq = (Raise (AttributeError msg), w')
     end) /\
  (forall e w1,
     get_api_key w = (Raise e, w1) ->
     exists w',
       process_data (PyDict d) wq =
         (Return (PyDict [("status", PyStr "error");
                          ("message", PyStr "Failed to retrieve API credentials")]),
          w')).
Proof.
  intros Hq Eop.
  destruct (process_data_dict d wq) as (wa & Hqa & ->). simpl. rewrite Eop.
  destruct (generate_cost_report_run (dict_get d "parameters" (PyDict [])) wa)
    as (w0 & r & w1 & Hq0 & G & Hrun).
  assert (quiet w w0) as Hq' by (eapply quiet_trans; [|exact Hq0]; by eapply quiet_trans).
  split.
  - intros api_key w2 G2.
    destruct (get_secret_quiet _ w w0 _ _ Hq' G2) as (w3 & G3).
    unfold get_api_key in G. rewrite G3 in G. inversion G; subst.
    destruct (dict_get d "parameters" (PyDict []));
      destruct Hrun as (x & w' & R & _); eauto.
  - intros e w2 G2.
    destruct (get_secret_quiet _ w w0 _ _ Hq' G2) as (w3 & G3).
    unfold get_api_key in G. rewrite G3 in G. inversion G; subst.
    destruct Hrun as (w' & R & _). eauto.
Qed.

Lemma process_data_other d w :
  eq_str (dict_get d "operation" (PyStr "unknown")) "cost-report" = false ->
  exists result w', process_data (PyDict d) w = (Return result, w').
Proof.
  intros Eop.
  destruct (process_data_dict d w) as (wa & Hqa & ->). simpl. rewrite Eop.
  destruct (eq_str _ "infra-audit").
  { destruct (audit_infrastructure_run (dict_get d "parameters" (PyDict [])) wa)
      as (x & w2 & R2 & _). eauto. }
  destruct (eq_str _ "user-stats").
  { destruct (analyze_user_stats_run (dict_get d "parameters" (PyDict [])) wa)
      as (x & w2 & R2 & _). eauto. }
  unfold ret. eauto.
Qed.

(** The response of [handler] to a [dict], by what [process_data] does
    once the opening lines are printed. *)
Lemma handler_dict_response d context w :
  exists w0,
    quiet w w0 /\
    match process_data (PyDict d) w0 with
    | (Return result, _) =>
        exists w',
          handler (PyDict d) context w =
            (Return (PyDict [("statusCode", PyInt 200);
                             ("body", PyStr (json_dumps result))]), w')
    | (Raise _, _) =>
        exists w', handler (PyDict d) context w = (Return internal_error_response, w')
    end.
Proof.
  destruct (prelude_quiet d w) as (w0 & P & Q0).
  exists w0. split; [done|].
  pose proof (handler_try_dict d w w0 P) as T.
  pose proof (handler_of_try (PyDict d) context w) as B.
  destruct (process_data (PyDict d) w0) as [[result|e] w1].
  - destruct T as (w' & T & _). rewrite T in B. eauto.
  - rewrite T in B. destruct B as (w' & B & _). eauto.
Qed.

(** X9. The status code of [handler] for a [dict] intent.  It is 500 in
    one case only: the operation is [cost-report], the API key is
    retrieved, and [parameters] is not a [dict].  When the retrieval of
    the key fails, a cost report still answers 200, its body carrying
    [status: error]; every other operation answers 200.  An event that
    is neither a [str] nor a [dict] answers 500. *)
Theorem handler_status_code d context w :
  let operation := dict_get d "operation" (PyStr "unknown") in
  let parameters := dict_get d "parameters" (PyDict []) in
  (eq_str operation "cost-report" = true ->
   (exists api_key w1, get_api_key w = (Return api_key, w1)) ->
   (forall ps, parameters <> PyDict ps) ->
   exists w',
     handler (PyDict d) context w =
       (Return
          (PyDict [("statusCode", PyInt 500);
                   ("body",
                    PyStr (json_dumps
                             (PyDict [("status", PyStr "error");
                                      ("message", PyStr "Internal processing error")])))]),
        w')) /\
  (eq_str operation "cost-report" = true ->
   (exists e w1, get_api_key w = (Raise e, w1)) ->
   exists w',
     handler (PyDict d) context w =
       (Return
          (PyDict [("statusCode", PyInt 200);
                   ("body",
                    PyStr (json_dumps
                             (PyDict [("status", PyStr "error");
                                      ("message",
                                       PyStr "Failed to retrieve API credentials")])))]),
        w')) /\
  (eq_str operation "cost-report" = false \/ (exists ps, parameters = PyDict ps) ->
   exists result w',
     handler (PyDict d) context w =
       (Return (PyDict [("statusCode", PyInt 200);
                        ("body", PyStr (json_dumps result))]), w')) /\
  (forall event,
     (forall s, event <> PyStr s) -> (forall d', event <> PyDict d') ->
     exists w',
       handler event context w =
         (Return
            (PyDict [("statusCode", PyInt 500);
                     ("body",
                      PyStr (json_dumps
                               (PyDict [("status", PyStr "error");
                                        ("message", PyStr "Internal processing error")])))]),
          w')).
Proof.
  intros operation parameters.
  destruct (handler_dict_response d context w) as (w0 & Q0 & Hr).
  split; [|split; [|split]].
  - intros Eop (api_key & w1 & G) Hnd.
    destruct (process_data_cost_report d w w0 Q0 Eop) as [Hok _].
    specialize (Hok api_key w1 G). fold parameters in Hok.
    destruct parameters; try (by destruct (Hnd d0));
      destruct Hok as (msg & w' & PD); rewrite PD in Hr; exact Hr.
  - intros Eop (e & w1 & G).
    destruct (process_data_cost_report d w w0 Q0 Eop) as [_ Hko].
    destruct (Hko e w1 G) as (w' & PD). rewrite PD in Hr. exact Hr.
  - intros [Eop|(ps & Eps)].
    + destruct (process_data_other d w0 Eop) as (result & w' & PD).
      rewrite PD in Hr. eauto.
    + destruct (eq_str operation "cost-report") eqn:Eop.
      * destruct (get_api_key w) as [[api_key|e] w1] eqn:G.
        -- destruct (process_data_cost_report d w w0 Q0 Eop) as [Hok _].
           specialize (Hok api_key w1 G). fold parameters in Hok.
           rewrite Eps in Hok. destruct Hok as (x & w' & PD).
           rewrite PD in Hr. eauto.
        -- destruct (process_data_cost_report d w w0 Q0 Eop) as [_ Hko].
           destruct (Hko e w1 G) as (w' & PD). rewrite PD in Hr. eauto.
      * destruct (process_data_other d w0 Eop) as (result & w' & PD).
        rewrite PD in Hr. eauto.
  - intros event Hs Hd.
    pose proof (handler_of_try event context w) as B.
    assert (exists e w1, handler_try event w = (Raise e, w1)) as (e & w1 & T).
    { destruct event as [| | | |s| |d0];
        try (unfold handler_try, method_get, bind, raise, ret; simpl;
             step_log; solve [eauto]).
      - by destruct (Hs s).
      - by destruct (Hd d0). }
    rewrite T in B. destruct B as (w' & B & _). eauto.
Qed.

(** X10. The period of a cost report is whatever the caller put under
    [period], of any type and unchecked; it is [last_30_days] when the
    parameters hold no [period], and also when the intent holds no
    [parameters] at all. *)
Theorem cost_report_period d w :
  eq_str (dict_get d "operation" (PyStr "unknown")) "cost-report" = true ->
  (exists api_key w1, get_api_key w = (Return api_key, w1)) ->
  forall ps,
    dict_lookup d "parameters" = Some (PyDict ps) \/
    (dict_lookup d "parameters" = None /\ ps = []) ->
    exists period generated_at w',
      process_data (PyDict d) w =
        (Return
           (PyDict
              [("status", PyStr "success");
               ("report",
                PyDict [("period", period);
                        ("total_cost", PyFloat 1234.56);
                        ("breakdown",
                         PyDict [("compute", PyFloat 800.00);
                                 ("storage", PyFloat 234.56);
                                 ("network", PyFloat 200.00)])]);
               ("generated_at", PyStr generated_at)]), w') /\
      (forall p, dict_lookup ps "period" = Some p -> period = p) /\
      (dict_lookup ps "period" = None -> period = PyStr "last_30_days").
Proof.
  intros Eop (api_key & w1 & G) ps Hps.
  destruct (process_data_cost_report d w w (quiet_refl w) Eop) as [Hok _].
  specialize (Hok api_key w1 G).
  assert (dict_get d "parameters" (PyDict []) = PyDict ps) as Eps.
  { unfold dict_get. destruct Hps as [->|[-> ->]]; done. }
  rewrite Eps in Hok. destruct Hok as (generated_at & w' & PD).
  exists (dict_get ps "period" (PyStr "last_30_days")), generated_at, w'.
  split; [exact PD|]. unfold dict_get.
  split; [intros p ->|intros ->]; done.
Qed.

(** ** The address in the log *)

Lemma substring_prefix n s : exists rest, s = String.substring 0 n s +:+ rest.
Proof.
  revert s. induction n as [|n IH]; intros s.
  - exists s. by destruct s.
  - destruct s as [|c s]; [by exists EmptyString|].
    destruct (IH s) as (rest & E). exists rest.
    change (String c s = String c (String.substring 0 n s +:+ rest)).
    by rewrite <- E.
Qed.

Lemma substring_length n s : (String.length (String.substring 0 n s) <= n)%nat.
Proof.
  revert s. induction n as [|n IH]; intros s.
  - destruct s; simpl; lia.
  - destruct s as [|c s]; simpl; [lia|]. specialize (IH s). lia.
Qed.

(** X11. For a callback address that is a non-empty [str],
    [send_notification] does nothing but log one [INFO] line, which
    names a prefix of the address of at most 20 characters: the rest of
    the address never reaches the log. *)
Theorem send_notification_logs_prefix result s w :
  s <> EmptyString ->
  exists shown,
    send_notification result (PyStr s) w =
      log "INFO" ("Notification sent to " +:+ shown +:+ "...") w /\
    (String.length shown <= 20)%nat /\
    exists rest, s = shown +:+ rest.
Proof.
  intros Hne. exists (String.substring 0 20 s).
  split; [|split; [apply substring_length|apply substring_prefix]].
  unfold send_notification, truthy.
  destruct (String.eqb_spec s EmptyString) as [E|_]; [done|]. simpl.
  unfold try_except.
  destruct (log_quiet "INFO" ("Notification sent to " +:+ String.substring 0 20 s +:+ "...") w)
    as (w' & E & _).
  by rewrite E.
Qed.

(** X13. One invocation of [handler], whatever the event and however it
    ends, leaves the ttl of the cache and every entry kept under a name
    other than that of the API key as they were. *)
Theorem handler_cache_frame event context w r w' :
  handler event context w = (r, w') ->
  _ttl_seconds (_secret_cache w') = _ttl_seconds (_secret_cache w) /\
  (forall other,
     other <> "/slack-bot/" +:+ ENVIRONMENT +:+ "/api-key" ->
     _cache (_secret_cache w') !! other = _cache (_secret_cache w) !! other).
Proof.
  intros Hh.
  destruct (handler_footprint _ _ _ _ _ Hh) as [(c & _)|(w0 & r0 & w1 & Q0 & G & Q1)].
  { by rewrite c. }
  destruct Q0 as (c0 & _). destruct Q1 as (c1 & _).
  unfold get_api_key in G.
  destruct (get_secret_others _ _ _ _ G) as [Httl Hother].
  rewrite c1, Httl, c0. split; [done|].
  intros other Hne. by rewrite Hother, c0.
Qed.

End Properties.

(** ** Secret values stay out of the response and of the log *)

Section Secrecy.
Context (R1 : Runtime) (store2 : nat -> string -> bool -> ssm_outcome).
Hypothesis shapes :
  forall n name decrypt,
    same_shape (@ssm_get_parameter R1 n name decrypt) (store2 n name decrypt).

Abbreviation R2 := (with_store R1 store2).

Lemma related_ret {A} (RA : A -> A -> Prop) a1 a2 :
  RA a1 a2 -> related RA (ret a1) (ret a2).
Proof. intros Ha w1 w2 Hs. by split. Qed.

Lemma related_raise {A} (RA : A -> A -> Prop) e :
  related RA (raise e) (raise e).
Proof. intros w1 w2 Hs. by split. Qed.

Lemma related_bind {A B} (RA : A -> A -> Prop) (RB : B -> B -> Prop)
    (c1 c2 : M A) (k1 k2 : A -> M B) :
  related RA c1 c2 ->
  (forall a1 a2, RA a1 a2 -> related RB (k1 a1) (k2 a2)) ->
  related RB (bind c1 k1) (bind c2 k2).
Proof.
  intros Hc Hk w1 w2 Hs. unfold bind.
  destruct (Hc w1 w2 Hs) as [Hs' Hr].
  destruct (c1 w1) as [[a1|e1] w1'], (c2 w2) as [[a2|e2] w2']; simpl in *;
    try done.
  by apply Hk.
Qed.

Lemma related_try_except {A} (RA : A -> A -> Prop)
    (body1 body2 : M A) catches (h1 h2 : exn -> M A) :
  related RA body1 body2 ->
  (forall e, related RA (h1 e) (h2 e)) ->
  related RA (try_except body1 catches h1) (try_except body2 catches h2).
Proof.
  intros Hb Hh w1 w2 Hs. unfold try_except.
  destruct (Hb w1 w2 Hs) as [Hs' Hr].
  destruct (body1 w1) as [[a1|e1] w1'], (body2 w2) as [[a2|e2] w2']; simpl in *;
    try done.
  subst e2. destruct (catches e1); [by apply Hh|done].
Qed.

Lemma related_weaken {A} (RA RA' : A -> A -> Prop) (c1 c2 : M A) :
  (forall a1 a2, RA a1 a2 -> RA' a1 a2) ->
  related RA c1 c2 -> related RA' c1 c2.
Proof.
  intros Hw Hc w1 w2 Hs. destruct (Hc w1 w2 Hs) as [Hs' Hr].
  split; [done|].
  destruct (fst (c1 w1)), (fst (c2 w2)); try done. by apply Hw.
Qed.

Lemma related_utcnow : related eq (@utcnow R1) (@utcnow R2).
Proof.
  intros w1 w2 (t & u & sc & so & ttl & c). unfold utcnow. simpl.
  split; [|by rewrite u].
  repeat split; simpl; try done. by rewrite u.
Qed.

Lemma related_print line : related eq (print line) (print line).
Proof.
  intros w1 w2 (t & u & sc & so & ttl & c). unfold print. simpl.
  split; [|done]. repeat split; simpl; try done. by rewrite so.
Qed.

Lemma related_log level message :
  related eq (@log R1 level message) (@log R2 level message).
Proof.
  unfold log. simpl.
  destruct (_ <=? _)%Z; [|by apply related_ret].
  eapply related_bind; [apply related_utcnow|].
  intros a1 a2 <-. apply related_print.
Qed.

Lemma related_time_time : related eq (@time_time R1) (@time_time R2).
Proof.
  intros w1 w2 (t & u & sc & so & ttl & c). unfold time_time. simpl.
  split; [|by rewrite t].
  repeat split; simpl; try done. by rewrite t.
Qed.

Lemma sim_delete key w1 w2 :
  sim w1 w2 ->
  sim (with_cache {| _cache := delete key (_cache (_secret_cache w1));
                     _ttl_seconds := _ttl_seconds (_secret_cache w1) |} w1)
      (with_cache {| _cache := delete key (_cache (_secret_cache w2));
                     _ttl_seconds := _ttl_seconds (_secret_cache w2) |} w2).
Proof.
  intros (t & u & sc & so & ttl & c). repeat split; simpl; try done.
  intros k. destruct (decide (key = k)) as [->|Hne].
  - rewrite !lookup_delete_eq. constructor.
  - rewrite !lookup_delete_ne by done. apply c.
Qed.

Lemma sim_insert key v1 v2 x1 x2 t1 t2 w1 w2 :
  sim w1 w2 -> x1 = x2 -> t1 = t2 ->
  sim (with_cache {| _cache := <[key := {| value_ := v1; expires_at := x1 |}]>
                                 (_cache (_secret_cache w1));
                     _ttl_seconds := t1 |} w1)
      (with_cache {| _cache := <[key := {| value_ := v2; expires_at := x2 |}]>
                                 (_cache (_secret_cache w2));
                     _ttl_seconds := t2 |} w2).
Proof.
  intros (t & u & sc & so & ttl & c) -> ->. repeat split; simpl; try done.
  intros k. destruct (decide (key = k)) as [->|Hne].
  - rewrite !lookup_insert_eq. by constructor.
  - rewrite !lookup_insert_ne by done. apply c.
Qed.

Lemma related_ssm name decrypt :
  related
    (fun r1 r2 => response_value (SsmReturns r1) = None
                  <-> response_value (SsmReturns r2) = None)
    (@ssm_client_get_parameter R1 name decrypt)
    (@ssm_client_get_parameter R2 name decrypt).
Proof using shapes.
  intros w1 w2 (t & u & sc & so & ttl & c).
  unfold ssm_client_get_parameter. simpl. rewrite sc.
  pose proof (shapes (length (ssm_calls w2)) name decrypt) as Hsh.
  assert (sim
    {| _secret_cache := _secret_cache w1; time_reads := time_reads w1;
       utcnow_reads := utcnow_reads w1;
       ssm_calls := ssm_calls w2 ++ [(name, decrypt)]; stdout := stdout w1 |}
    {| _secret_cache := _secret_cache w2; time_reads := time_reads w2;
       utcnow_reads := utcnow_reads w2;
       ssm_calls := ssm_calls w2 ++ [(name, decrypt)]; stdout := stdout w2 |})
    as Hs by (by repeat split).
  destruct (@ssm_get_parameter R1 _ _ _) as [r1|m1|c1 m1],
           (store2 _ _ _) as [r2|m2|c2 m2]; simpl in Hsh; try done; simpl.
  - split; [done|]. by rewrite Hsh.
  - split; [done|]. destruct Hsh as [-> ->]. done.
Qed.

Lemma related_SecretCache_get key :
  related (fun o1 o2 : option string => o1 = None <-> o2 = None)
    (@SecretCache_get R1 key) (@SecretCache_get R2 key).
Proof.
  intros w1 w2 Hs. pose proof Hs as (t & u & sc & so & ttl & c).
  unfold SecretCache_get.
  destruct (c key) as [e1 e2 Hexp|].
  - assert (related (fun o1 o2 : option string => o1 = None <-> o2 = None)
      (now <- @time_time R1 ;;
       if Qlt_le_dec now (expires_at e1) then
         @log R1 "DEBUG" ("Using cached secret: " +:+ key) ;;;
         ret (Some (value_ e1))
       else
         fun w' =>
           (Return None,
            with_cache {| _cache := delete key (_cache (_secret_cache w'));
                          _ttl_seconds := _ttl_seconds (_secret_cache w') |} w'))
      (now <- @time_time R2 ;;
       if Qlt_le_dec now (expires_at e2) then
         @log R2 "DEBUG" ("Using cached secret: " +:+ key) ;;;
         ret (Some (value_ e2))
       else
         fun w' =>
           (Return None,
            with_cache {| _cache := delete key (_cache (_secret_cache w'));
                          _ttl_seconds := _ttl_seconds (_secret_cache w') |} w')))
      as Hrel; [|exact (Hrel w1 w2 Hs)].
    eapply related_bind; [apply related_time_time|].
    intros now ? <-. rewrite Hexp.
    destruct (Qlt_le_dec now (expires_at e2)).
    + eapply related_bind; [apply related_log|].
      intros _ _ _. by apply related_ret.
    + intros wa wb Hab. split; [by apply sim_delete|done].
  - by split.
Qed.

Lemma related_SecretCache_set key v1 v2 :
  related eq (@SecretCache_set R1 key v1) (@SecretCache_set R2 key v2).
Proof.
  unfold SecretCache_set.
  eapply related_bind; [apply related_time_time|].
  intros now ? <- wa wb Hab. split; [|done].
  pose proof Hab as (_ & _ & _ & _ & Ettl & _).
  apply sim_insert; [done| |done]. by rewrite Ettl.
Qed.

Lemma related_get_secret name :
  related (fun _ _ => True) (@get_secret R1 name) (@get_secret R2 name).
Proof using shapes.
  unfold get_secret.
  eapply related_bind; [apply related_SecretCache_get|].
  intros [c1|] [c2|] Ho; try (by apply related_ret).
  { destruct Ho as [_ Ho]. by specialize (Ho eq_refl). }
  { destruct Ho as [Ho _]. by specialize (Ho eq_refl). }
  eapply related_bind; [apply related_log|]. intros _ _ _.
  apply related_try_except.
  - eapply related_bind; [apply related_ssm|].
    intros [[[[v1|]]|]] [[[[v2|]]|]] Hr; simpl in Hr;
      try (destruct Hr as [Hr _]; by specialize (Hr eq_refl));
      try (destruct Hr as [_ Hr]; by specialize (Hr eq_refl));
      try apply related_raise.
    eapply related_bind; [apply related_SecretCache_set|].
    intros _ _ _. by apply related_ret.
  - intros e. eapply related_bind; [apply related_log|].
    intros _ _ _. apply related_raise.
Qed.

Lemma related_method_get obj key dflt :
  related eq (method_get obj key dflt) (method_get obj key dflt).
Proof.
  unfold method_get. destruct obj; try apply related_raise. by apply related_ret.
Qed.

Lemma related_generate_cost_report parameters :
  related eq (@generate_cost_report R1 parameters) (@generate_cost_report R2 parameters).
Proof using shapes.
  unfold generate_cost_report.
  eapply related_bind; [apply related_log|]. intros _ _ _.
  eapply (related_bind
            (fun f1 f2 : value + string =>
               match f1, f2 with
               | inl a, inl b => a = b
               | inr _, inr _ => True
               | _, _ => False
               end)).
  - apply related_try_except.
    + eapply related_bind; [apply related_get_secret|]. intros k1 k2 _.
      eapply related_bind; [apply related_log|]. intros _ _ _.
      by apply related_ret.
    + intros e. eapply related_bind; [apply related_log|]. intros _ _ _.
      by apply related_ret.
  - intros [early1|k1] [early2|k2] Hf; try done;
      try (subst; by apply related_ret).
    eapply related_bind; [apply related_method_get|]. intros period ? <-.
    eapply related_bind; [apply related_utcnow|]. intros ts ? <-.
    by apply related_ret.
Qed.

Lemma related_process_data intent :
  related eq (@process_data R1 intent) (@process_data R2 intent).
Proof using shapes.
  unfold process_data.
  eapply related_bind; [apply related_method_get|]. intros operation ? <-.
  eapply related_bind; [apply related_method_get|]. intros parameters ? <-.
  eapply related_bind; [apply related_log|]. intros _ _ _.
  destruct (eq_str operation "cost-report"); [apply related_generate_cost_report|].
  destruct (eq_str operation "infra-audit").
  { unfold audit_infrastructure.
    eapply related_bind; [apply related_log|]. intros _ _ _.
    eapply related_bind; [apply related_utcnow|]. intros ts ? <-.
    by apply related_ret. }
  destruct (eq_str operation "user-stats").
  { unfold analyze_user_stats.
    eapply related_bind; [apply related_log|]. intros _ _ _.
    eapply related_bind; [apply related_utcnow|]. intros ts ? <-.
    by apply related_ret. }
  by apply related_ret.
Qed.

Lemma related_send_notification result callback_url :
  related eq (@send_notification R1 result callback_url)
             (@send_notification R2 result callback_url).
Proof.
  unfold send_notification.
  destruct (negb (truthy callback_url)); [apply related_log|].
  apply related_try_except; [|intros e; apply related_log].
  destruct (slice20 callback_url); [apply related_raise|apply related_log].
Qed.

Lemma related_handler event context :
  related eq (@handler R1 event context) (@handler R2 event context).
Proof using shapes.
  unfold handler. apply related_try_except.
  - unfold handler_try.
    eapply related_bind; [apply related_log|]. intros _ _ _.
    eapply (related_bind eq).
    { destruct event; try (by apply related_ret). simpl.
      destruct (@json_loads R1 s); [apply related_raise|by apply related_ret]. }
    intros intent ? <-.
    eapply related_bind; [apply related_method_get|]. intros id ? <-.
    eapply related_bind; [apply related_log|]. intros _ _ _.
    eapply related_bind; [apply related_process_data|]. intros result ? <-.
    eapply related_bind; [apply related_method_get|]. intros callback_url ? <-.
    eapply related_bind; [apply related_send_notification|]. intros _ _ _.
    eapply related_bind; [apply related_log|]. intros _ _ _.
    by apply related_ret.
  - intros e. eapply related_bind; [apply related_log|]. intros _ _ _.
    by apply related_ret.
Qed.

(** X12. The values of the secrets reach neither the caller nor the log.
    Take two runs of [handler] on the same event that differ only in
    those values: the stores answer alike up to the value returned, and
    the caches hold the same names with the same expiry.  Then both
    runs give the same response and print the same lines. *)
Theorem secrets_stay_out_of_sight event context w1 w2 :
  sim w1 w2 ->
  fst (@handler R1 event context w1) = fst (@handler R2 event context w2) /\
  stdout (snd (@handler R1 event context w1))
  = stdout (snd (@handler R2 event context w2)).
Proof using shapes.
  intros Hs. destruct (related_handler event context w1 w2 Hs) as [Hs' Hr].
  split.
  - destruct (fst (@handler R1 event context w1)),
             (fst (@handler R2 event context w2)); try done; by subst.
  - by destruct Hs' as (_ & _ & _ & so & _).
Qed.

End Secrecy.

(** ** The statements at work on the concrete runtime *)

Lemma SecretCache_get_contract_witness :
  (exists w', @SecretCache_get demo "/slack-bot/staging/api-key" warm
              = (Return (Some "s3cr3t"), w')) /\
  @SecretCache_get demo "/slack-bot/staging/api-key" boot = (Return None, boot).
Proof.
  split.
  - pose proof (@SecretCache_get_contract demo "/slack-bot/staging/api-key" warm)
      as (_ & Hm & _).
    vm_compute in Hm. destruct Hm as [Hfresh _].
    destruct Hfresh as (w' & G & _); [reflexivity|].
    exists w'. exact G.
  - pose proof (@SecretCache_get_contract demo "/slack-bot/staging/api-key" boot)
      as (_ & Hm & _).
    exact Hm.
Defined.

Lemma SecretCache_set_then_get_witness :
  (exists w', (@SecretCache_set demo "k" "v" ;;; @SecretCache_get demo "k") boot
              = (Return (Some "v"), w')) /\
  (exists w', (@SecretCache_set demo "k" "v" ;;; @SecretCache_get demo "k") boot_short
              = (Return None, w')).
Proof.
  split.
  - pose proof (@SecretCache_set_then_get demo "k" "v" boot) as T.
    cbv zeta in T. destruct T as [T _].
    destruct T as (w' & G & _); [vm_compute; reflexivity|].
    exists w'. exact G.
  - pose proof (@SecretCache_set_then_get demo "k" "v" boot_short) as T.
    cbv zeta in T. destruct T as [_ T].
    destruct T as (w' & G & _); [vm_compute; discriminate|].
    exists w'. exact G.
Defined.

Lemma get_secret_cache_first_witness :
  exists w' w'',
    @get_secret demo "/slack-bot/staging/api-key" boot = (Return "s3cr3t", w') /\
    @get_secret demo "/slack-bot/staging/api-key" w' = (Return "s3cr3t", w'') /\
    ssm_calls w'' = ssm_calls w'.
Proof.
  destruct (@get_secret_cache_first demo "/slack-bot/staging/api-key" boot)
    as [_ Hstale].
  destruct Hstale as [_ Hfetch]; [vm_compute; exact I|].
  destruct (Hfetch "s3cr3t") as (w' & e & G & E & _ & Hexp & Hagain);
    [vm_compute; reflexivity|].
  assert (w' = warm) as Hw by (unfold warm; by rewrite G).
  destruct (Hagain w' E) as (w'' & G2 & sc).
  { rewrite Hexp, Hw. vm_compute. reflexivity. }
  exists w', w''. auto.
Defined.


Lemma handler_boundary_witness :
  exists w',
    @handler demo (PyStr "{not json") PyNone boot =
      (Return
         (PyDict [("statusCode", PyInt 500);
                  ("body", PyStr "{'status':'error','message':'Internal processing error',}")]),
       w').
Proof.
  destruct (@handler_boundary demo (PyStr "{not json") PyNone boot)
    as (_ & _ & Hbad & _).
  exact (Hbad "{not json" "Expecting value: line 1 column 1 (char 0)" eq_refl eq_refl).
Defined.

Lemma process_data_unknown_operation_witness :
  exists w',
    @process_data demo (PyDict [("operation", PyStr "frobnicate")]) boot =
      (Return (PyDict [("status", PyStr "unknown_operation");
                       ("message", PyStr "Unknown operation: frobnicate")]), w').
Proof.
  destruct (@process_data_unknown_operation demo
              [("operation", PyStr "frobnicate")] boot) as [Hany _].
  destruct (Hany "frobnicate") as (w' & P & _);
    [reflexivity | discriminate | discriminate | discriminate |].
  exists w'. exact P.
Defined.

Lemma cost_report_envelope_witness :
  exists generated_at w',
    @process_data demo
       (PyDict [("operation", PyStr "cost-report");
                ("parameters", PyDict [("period", PyStr "last_7_days")])]) boot =
      (Return
         (PyDict
            [("status", PyStr "success");
             ("report",
              PyDict [("period", PyStr "last_7_days");
                      ("total_cost", PyFloat 1234.56);
                      ("breakdown",
                       PyDict [("compute", PyFloat 800.00);
                               ("storage", PyFloat 234.56);
                               ("network", PyFloat 200.00)])]);
             ("generated_at", PyStr generated_at)]), w').
Proof.
  apply (proj1 (@cost_report_envelope demo
                  [("operation", PyStr "cost-report");
                   ("parameters", PyDict [("period", PyStr "last_7_days")])]
                  [("period", PyStr "last_7_days")] boot eq_refl eq_refl eq_refl)
           "s3cr3t" warm).
  vm_compute. reflexivity.
Defined.

Lemma send_notification_frame_witness :
  fst (@handler demo (PyDict [("operation", PyStr "infra-audit")]) PyNone boot) =
  fst (@handler demo
         (PyDict [("operation", PyStr "infra-audit");
                  ("callbackUrl", PyStr "https://hooks.example/T000/B000")])
         PyNone boot).
Proof.
  destruct (@send_notification_frame demo PyNone PyNone boot) as (_ & _ & _ & Hcb).
  apply Hcb.
  intros key Hne. cbn [dict_lookup].
  destruct (String.eqb "operation" key); [reflexivity|].
  destruct (String.eqb_spec "callbackUrl" key) as [Heq|_]; [|reflexivity].
  exfalso. apply Hne. symmetry. exact Heq.
Defined.

Lemma stub_handlers_keep_off_secrets_witness :
  ~ quiet boot (snd (@generate_cost_report demo (PyDict []) boot)).
Proof.
  destruct (@stub_handlers_keep_off_secrets demo (PyDict []) boot) as (_ & _ & Hcost).
  apply (Hcost (fst (@generate_cost_report demo (PyDict []) boot))).
  apply surjective_pairing.
Defined.

Lemma missing_operation_is_unknown_witness :
  exists w',
    @handler demo (PyDict []) PyNone boot =
      (Return
         (PyDict
            [("statusCode", PyInt 200);
             ("body",
              PyStr "{'status':'unknown_operation','message':'Unknown operation: unknown',}")]),
       w').
Proof.
  exact (proj2 (@missing_operation_is_unknown demo [] PyNone boot eq_refl)).
Defined.

Lemma get_secret_frame_witness :
  _ttl_seconds (_secret_cache warm) = 300%Z /\
  _cache (_secret_cache warm) !! "/slack-bot/staging/webhook-url" = None.
Proof.
  destruct (@get_secret_frame demo "/slack-bot/staging/api-key" boot
              (Return "s3cr3t") warm) as [Httl Hother].
  { vm_compute. reflexivity. }
  split.
  - rewrite Httl. reflexivity.
  - rewrite Hother; [reflexivity|discriminate].
Defined.

Lemma failed_fetch_not_cached_witness :
  exists e w',
    @get_secret demo "/slack-bot/staging/webhook-url" boot = (Raise e, w') /\
    _cache (_secret_cache w') !! "/slack-bot/staging/webhook-url" = None.
Proof.
  destruct (@failed_fetch_not_cached demo "/slack-bot/staging/webhook-url" boot)
    as (e & w' & G & E & _).
  { vm_compute. exact I. }
  { vm_compute. reflexivity. }
  exists e, w'. split; [exact G|exact E].
Defined.

Lemma handler_store_requests_witness :
  ssm_calls (snd (@handler demo cost_report_event PyNone boot)) = ssm_calls boot \/
  ssm_calls (snd (@handler demo cost_report_event PyNone boot)) =
    (ssm_calls boot ++ [("/slack-bot/" +:+ @ENVIRONMENT demo +:+ "/api-key", true)])%list.
Proof.
  exact (proj1 (@handler_store_requests demo cost_report_event PyNone boot _ _
                  (surjective_pairing _))).
Defined.

Lemma handler_status_code_witness :
  exists w',
    @handler demo
       (PyDict [("operation", PyStr "cost-report"); ("parameters", PyNone)])
       PyNone boot =
      (Return
         (PyDict [("statusCode", PyInt 500);
                  ("body", PyStr "{'status':'error','message':'Internal processing error',}")]),
       w').
Proof.
  pose proof (@handler_status_code demo
                [("operation", PyStr "cost-report"); ("parameters", PyNone)]
                PyNone boot) as T.
  cbv zeta in T. destruct T as [T _].
  apply T.
  - reflexivity.
  - exists "s3cr3t", warm. vm_compute. reflexivity.
  - intros ps. discriminate.
Defined.

Lemma cost_report_period_witness :
  exists generated_at w',
    @process_data demo (PyDict [("operation", PyStr "cost-report")]) boot =
      (Return
         (PyDict
            [("status", PyStr "success");
             ("report",
              PyDict [("period", PyStr "last_30_days");
                      ("total_cost", PyFloat 1234.56);
                      ("breakdown",
                       PyDict [("compute", PyFloat 800.00);
                               ("storage", PyFloat 234.56);
                               ("network", PyFloat 200.00)])]);
             ("generated_at", PyStr generated_at)]), w').
Proof.
  destruct (@cost_report_period demo [("operation", PyStr "cost-report")] boot)
    with (ps := @nil (string * value))
    as (period & generated_at & w' & PD & _ & Hdefault).
  { reflexivity. }
  { exists "s3cr3t", warm. vm_compute. reflexivity. }
  { right. split; reflexivity. }
  rewrite (Hdefault eq_refl) in PD. eauto.
Defined.

Lemma send_notification_logs_prefix_witness :
  exists shown,
    @send_notification demo PyNone
       (PyStr "https://hooks.example/services/T000/B000/t0k3n") boot =
      @log demo "INFO" ("Notification sent to " +:+ shown +:+ "...") boot /\
    (String.length shown <= 20)%nat.
Proof.
  destruct (@send_notification_logs_prefix demo PyNone
              "https://hooks.example/services/T000/B000/t0k3n" boot)
    as (shown & E & Hlen & _).
  { discriminate. }
  exists shown. split; [exact E|exact Hlen].
Defined.

Lemma secrets_stay_out_of_sight_witness :
  fst (@handler demo cost_report_event PyNone boot)
  = fst (@handler (with_store demo rotated_store) cost_report_event PyNone boot) /\
  stdout (snd (@handler demo cost_report_event PyNone boot))
  = stdout (snd (@handler (with_store demo rotated_store) cost_report_event PyNone boot)).
Proof.
  apply (@secrets_stay_out_of_sight demo rotated_store).
  - intros n name decrypt. unfold rotated_store. simpl.
    destruct (String.eqb name "/slack-bot/staging/api-key" && decrypt).
    + simpl. split; discriminate.
    + destruct (String.eqb name "/slack-bot/staging/webhook-url"); [reflexivity|].
      destruct (String.eqb name "/offline"); [by split|].
      simpl. split; reflexivity.
  - repeat split. intros k. unfold boot. simpl. rewrite lookup_empty. constructor.
Defined.

Lemma log_threshold_witness :
  @log demo "DEBUG" "Using cached secret: k" boot = (Return tt, boot) /\
  @log demo "ERROR" "Handler error" boot
  = (Return tt, @printed demo "ERROR" "Handler error" boot).
Proof.
  destruct (@log_threshold demo "Handler error" boot) as (Herror & _).
  destruct (@log_threshold demo "Using cached secret: k" boot)
    as (_ & _ & Hdebug & _).
  split; [|exact Herror].
  apply Hdebug. vm_compute. discriminate.
Defined.

Lemma accessors_keep_apart_witness :
  _cache (_secret_cache (snd (@get_api_key demo boot)))
    !! ("/slack-bot/" +:+ @ENVIRONMENT demo +:+ "/webhook-url")
  = _cache (_secret_cache boot)
    !! ("/slack-bot/" +:+ @ENVIRONMENT demo +:+ "/webhook-url").
Proof.
  exact (proj1 (@accessors_keep_apart demo boot _ _) (surjective_pairing _)).
Defined.

Lemma SecretCache_set_overwrites_witness :
  exists w',
    (@SecretCache_set demo "k" "v1" ;;; @SecretCache_set demo "k" "v2" ;;;
     @SecretCache_get demo "k") boot = (Return (Some "v2"), w').
Proof.
  pose proof (@SecretCache_set_overwrites demo "k" "v1" "v2" "k2" "v" boot) as T.
  cbv zeta in T. destruct T as [T _].
  apply T. vm_compute. reflexivity.
Defined.

Lemma expiry_invariant_witness :
  @expiry_wf demo (snd (@handler demo cost_report_event PyNone boot)).
Proof.
  destruct (@expiry_invariant demo) as (Hboot & Hkept & _).
  exact (Hkept cost_report_event PyNone boot _ _ Hboot (surjective_pairing _)).
Defined.

Lemma cache_holds_store_answers_witness :
  @sourced demo (snd (@handler demo cost_report_event PyNone boot)).
Proof.
  destruct (@cache_holds_store_answers demo) as (Hboot & Hkept & _).
  exact (Hkept cost_report_event PyNone boot _ _ Hboot (surjective_pairing _)).
Defined.

Lemma handler_cache_frame_witness :
  _ttl_seconds (_secret_cache (snd (@handler demo cost_report_event PyNone boot)))
  = _ttl_seconds (_secret_cache boot).
Proof.
  exact (proj1 (@handler_cache_frame demo cost_report_event PyNone boot _ _
                  (surjective_pairing _))).
Defined.

